(** * IREAIv4 front end: field registry, value resolution and recalculation

    A shallow embedding of the property page
    ([frontend/src/pages/property/[id].tsx]) and of the key-case converters
    of the account page ([frontend/src/pages/mypage.tsx]).

    - JavaScript numbers are IEEE 754 binary64 values: they are Rocq's
      primitive floats, and the conversions between numbers and text
      ([parseFloat], [Number.prototype.toString], [toFixed], [Math.round],
      [Intl.NumberFormat]) are computed on the exact value of the double.
    - Strings are sequences of ASCII characters, which covers every name
      and key the two pages declare.
    - The objects of a response, the override tables and the pending edits
      are finite maps; a lookup that finds no own property falls through to
      [Object.prototype].  An object built key by key is a list of its
      properties in the order [Object.keys] gives them.
    - A function that can throw returns an [option], [None] being the
      exception; [try] and [catch] are written out.
    - The component is a state record; every handler and every outcome of a
      request is an event that takes one state to the next.  Opening the
      page mounts a fresh instance of the component; the tab numbers the
      instances and drops what is addressed to one no longer mounted. *)

From Stdlib Require Import ZArith String Ascii List Lia.
From Stdlib Require Import PrimFloat FloatOps SpecFloat DecimalString.
From stdpp Require Import gmap strings.
Import ListNotations.
Open Scope Z_scope.

Set Warnings "-inexact-float,-register-all".

(** ** Characters and strings *)

Module Str.

Definition code (c : ascii) : Z := Z.of_nat (nat_of_ascii c).

Definition is_digit (c : ascii) : bool := (48 <=? code c) && (code c <=? 57).
Definition is_upper (c : ascii) : bool := (65 <=? code c) && (code c <=? 90).
Definition is_lower (c : ascii) : bool := (97 <=? code c) && (code c <=? 122).

(** [\w] of a JavaScript regular expression. *)
Definition is_word (c : ascii) : bool :=
  is_digit c || is_upper c || is_lower c || Ascii.eqb c "_".

(** White space as [parseFloat] and [ToNumber] skip it (ASCII part). *)
Definition is_space (c : ascii) : bool :=
  (code c =? 32) || ((9 <=? code c) && (code c <=? 13)).

Definition lower_char (c : ascii) : ascii :=
  if is_upper c then ascii_of_nat (nat_of_ascii c + 32) else c.
Definition upper_char (c : ascii) : ascii :=
  if is_lower c then ascii_of_nat (nat_of_ascii c - 32) else c.

Fixpoint map (f : ascii -> ascii) (s : string) : string :=
  match s with
  | EmptyString => EmptyString
  | String c r => String (f c) (map f r)
  end.

(** [String.prototype.toLowerCase]. *)
Definition toLowerCase : string -> string := map lower_char.

Definition len (s : string) : Z := Z.of_nat (String.length s).

Fixpoint zeros (n : nat) : string :=
  match n with O => EmptyString | S k => String "0" (zeros k) end.

Definition pad_left (w : nat) (s : string) : string :=
  zeros (w - String.length s) +:+ s.

Definition drop (i : nat) (s : string) : string :=
  String.substring i (String.length s - i) s.

(** [s.includes(t)]. *)
Fixpoint includes (t s : string) : bool :=
  String.prefix t s ||
  match s with
  | EmptyString => false
  | String _ r => includes t r
  end.

Fixpoint skip_spaces (s : string) : string :=
  match s with
  | String c r => if is_space c then skip_spaces r else s
  | EmptyString => EmptyString
  end.

Fixpoint strip_trailing (p : ascii -> bool) (s : string) : string :=
  match s with
  | EmptyString => EmptyString
  | String c r =>
      match strip_trailing p r with
      | EmptyString => if p c then EmptyString else String c EmptyString
      | r' => String c r'
      end
  end.

Definition trim (s : string) : string := strip_trailing is_space (skip_spaces s).

Fixpoint take_digits (s : string) : string * string :=
  match s with
  | String c r =>
      if is_digit c then let '(d, r') := take_digits r in (String c d, r')
      else (EmptyString, s)
  | EmptyString => (EmptyString, EmptyString)
  end.

End Str.

(** ** Numbers *)

Module JsNum.

Definition Z2float (n : Z) : float := SF2Prim (binary_normalize prec emax n 0 false).

Definition digitsZ (n : Z) : string := NilZero.string_of_uint (N.to_uint (Z.to_N n)).

Fixpoint digits_val_from (acc : Z) (s : string) : Z :=
  match s with
  | String c r => digits_val_from (10 * acc + (Str.code c - 48)) r
  | EmptyString => acc
  end.
Definition digits_val : string -> Z := digits_val_from 0.

(** The rational [m * 2^e * 10^j] as numerator over denominator. *)
Definition ratio_num (m e j : Z) : Z := m * 2 ^ Z.max e 0 * 10 ^ Z.max j 0.
Definition ratio_den (e j : Z) : Z := 2 ^ Z.max (- e) 0 * 10 ^ Z.max (- j) 0.

(** [floor (m * 2^e * 10^j + 1/2)]. *)
Definition round_half_up_scaled (m e j : Z) : Z :=
  (2 * ratio_num m e j + ratio_den e j) / (2 * ratio_den e j).

Definition signed_zero (neg : bool) : float := if neg then neg_zero else zero.
Definition signed_inf (neg : bool) : float := if neg then neg_infinity else infinity.

(** [Math.round]: the integer nearest to [x], a tie going to the larger one;
    zeros, infinities and NaN are returned as they are and a result of zero
    keeps the sign of [x]. *)
Definition Math_round (x : float) : float :=
  match Prim2SF x with
  | S754_finite s m e =>
      let n := round_half_up_scaled (if s then Z.neg m else Z.pos m) e 0 in
      if n =? 0 then signed_zero s else Z2float n
  | _ => x
  end.

(** The double nearest to the decimal [m * 10^e10], with [0 <= m]; beyond
    the range of the doubles the result is an infinity or a zero. *)
Definition dec2float (neg : bool) (m : Z) (e10 : Z) : float :=
  if m =? 0 then signed_zero neg else
  if 310 <? e10 then signed_inf neg else
  if e10 + Z.log2 m + 1 <? -330 then signed_zero neg else
  let sf :=
    if 0 <=? e10 then binary_normalize prec emax (m * 10 ^ e10) 0 false
    else SFdiv prec emax (S754_finite false (Z.to_pos m) 0)
                         (S754_finite false (Z.to_pos (10 ^ (- e10))) 0) in
  let f := SF2Prim sf in if neg then (- f)%float else f.

(** *** Decimal literals: [StrDecimalLiteral] of ECMA-262 *)

Definition take_sign (s : string) : bool * string :=
  match s with
  | String "-" r => (true, r)
  | String "+" r => (false, r)
  | _ => (false, s)
  end.

Definition parse_exponent (s : string) : Z * string :=
  match s with
  | String c r =>
      if Ascii.eqb c "e" || Ascii.eqb c "E" then
        let '(neg, r1) := take_sign r in
        let '(d, r2) := Str.take_digits r1 in
        match d with
        | EmptyString => (0, s)
        | _ => ((if neg then - digits_val d else digits_val d), r2)
        end
      else (0, s)
  | EmptyString => (0, s)
  end.

(** Mantissa, decimal exponent and the text left after the literal. *)
Definition parse_decimal (s : string) : option (Z * Z * string) :=
  let '(ip, r1) := Str.take_digits s in
  let '(fp, r2) := match r1 with
                   | String "." r => Str.take_digits r
                   | _ => (EmptyString, r1)
                   end in
  match ip, fp with
  | EmptyString, EmptyString => None
  | _, _ =>
      let '(ex, r3) := parse_exponent r2 in
      Some (digits_val (ip +:+ fp), ex - Str.len fp, r3)
  end.

(** [parseFloat]: the longest decimal literal after leading white space. *)
Definition parseFloat (s : string) : float :=
  let '(neg, r) := take_sign (Str.skip_spaces s) in
  if String.prefix "Infinity" r then signed_inf neg
  else match parse_decimal r with
       | Some (m, e, _) => dec2float neg m e
       | None => nan
       end.

(** Digits of a literal in base 2, 8 or 16 ([0b], [0o], [0x]). *)
Definition radix_digit (c : ascii) : option Z :=
  if Str.is_digit c then Some (Str.code c - 48)
  else if (97 <=? Str.code c) && (Str.code c <=? 102) then Some (Str.code c - 87)
  else if (65 <=? Str.code c) && (Str.code c <=? 70) then Some (Str.code c - 55)
  else None.

Fixpoint radix_val (b acc : Z) (s : string) : option Z :=
  match s with
  | EmptyString => Some acc
  | String c r =>
      match radix_digit c with
      | Some d => if d <? b then radix_val b (b * acc + d) r else None
      | None => None
      end
  end.

Definition radix_literal (s : string) : option Z :=
  match s with
  | String "0" (String c (String d r)) =>
      let body := String d r in
      if Ascii.eqb c "x" || Ascii.eqb c "X" then radix_val 16 0 body
      else if Ascii.eqb c "o" || Ascii.eqb c "O" then radix_val 8 0 body
      else if Ascii.eqb c "b" || Ascii.eqb c "B" then radix_val 2 0 body
      else None
  | _ => None
  end.

(** [StringToNumber]: the whole trimmed text must be a numeric literal. *)
Definition StringToNumber (s : string) : float :=
  let t := Str.trim s in
  match t with
  | EmptyString => zero
  | _ =>
      match radix_literal t with
      | Some n => Z2float n
      | None =>
          let '(neg, r) := take_sign t in
          if String.eqb r "Infinity" then signed_inf neg
          else match parse_decimal r with
               | Some (m, e, EmptyString) => dec2float neg m e
               | _ => nan
               end
      end
  end.

(** *** [Number::toString]: the shortest decimal that reads back as [x] *)

Fixpoint first_scale (fuel : nat) (num den j : Z) : Z :=
  match fuel with
  | O => j
  | S f => if den <=? num * 10 ^ j then j else first_scale f num den (j + 1)
  end.

(** [n] with [10^(n-1) <= num/den < 10^n]. *)
Definition decimal_exponent (num den : Z) : Z :=
  if den <=? num then Str.len (digitsZ (num / den))
  else 1 - first_scale 400 num den 1.

(** A [k]-digit integer [s] with [s * 10^(n-k)] reading back as [x]: of the
    two neighbours of [num/den] the nearer one, the even one on a tie. *)
Definition candidate (x : float) (num den n k : Z) : option Z :=
  let p := n - k in
  let num' := num * 10 ^ Z.max (- p) 0 in
  let den' := den * 10 ^ Z.max p 0 in
  let lo := num' / den' in
  let r := num' - lo * den' in
  let ok_lo := PrimFloat.eqb (dec2float false lo p) x in
  let ok_hi := PrimFloat.eqb (dec2float false (lo + 1) p) x in
  match ok_lo, ok_hi with
  | true, true =>
      match 2 * r ?= den' with
      | Lt => Some lo
      | Gt => Some (lo + 1)
      | Eq => Some (if Z.even lo then lo else lo + 1)
      end
  | true, false => Some lo
  | false, true => Some (lo + 1)
  | false, false => None
  end.

Fixpoint shortest_from (fuel : nat) (x : float) (num den n k : Z) : Z * Z :=
  match fuel with
  | O => (num * 10 ^ Z.max (k - n) 0 / (den * 10 ^ Z.max (n - k) 0), n - k)
  | S f =>
      match candidate x num den n k with
      | Some s => (s, n - k)
      | None => shortest_from f x num den n (k + 1)
      end
  end.

(** Digits [d] (no trailing zero) and [n] with [x = 0.d * 10^n], for the
    positive double [x = m * 2^e]. *)
Definition shortest (x : float) (m : positive) (e : Z) : string * Z :=
  let num := ratio_num (Z.pos m) e 0 in
  let den := ratio_den e 0 in
  let n := decimal_exponent num den in
  let '(s, p) := shortest_from 17 x num den n 1 in
  (Str.strip_trailing (Ascii.eqb "0") (digitsZ s), p + Str.len (digitsZ s)).

Definition Number_toString (x : float) : string :=
  match Prim2SF x with
  | S754_nan => "NaN"
  | S754_zero _ => "0"
  | S754_infinity s => if s then "-Infinity" else "Infinity"
  | S754_finite s m e =>
      let '(d, n) := shortest (abs x) m e in
      let k := Str.len d in
      let body :=
        if (k <=? n) && (n <=? 21) then d +:+ Str.zeros (Z.to_nat (n - k))
        else if (0 <? n) && (n <=? 21) then
          String.substring 0 (Z.to_nat n) d +:+ "." +:+ Str.drop (Z.to_nat n) d
        else if (-6 <? n) && (n <=? 0) then
          "0." +:+ Str.zeros (Z.to_nat (- n)) +:+ d
        else
          let ex := n - 1 in
          let es := (if ex <? 0 then "-" else "+") +:+ digitsZ (Z.abs ex) in
          if k =? 1 then d +:+ "e" +:+ es
          else String.substring 0 1 d +:+ "." +:+ Str.drop 1 d +:+ "e" +:+ es in
      if s then "-" +:+ body else body
  end.

(** [Number.prototype.toFixed(f)]: the integer [n] with [n / 10^f] nearest
    to [|x|], the larger one on a tie, written with [f] fractional digits. *)
Definition toFixed (x : float) (f : nat) : string :=
  if is_nan x then "NaN"
  else if PrimFloat.leb 1e21%float (abs x) then Number_toString x
  else
    let n := match Prim2SF x with
             | S754_finite _ m e => round_half_up_scaled (Z.pos m) e (Z.of_nat f)
             | _ => 0
             end in
    let d := Str.pad_left (S f) (digitsZ n) in
    let ip := String.substring 0 (String.length d - f) d in
    let body := match f with
                | O => ip
                | _ => ip +:+ "." +:+ Str.drop (String.length d - f) d
                end in
    if PrimFloat.ltb x 0%float then "-" +:+ body else body.

(** *** [Intl.NumberFormat('en-US', ...)] with no fractional digit *)

Fixpoint group3_from (s : string) (n : nat) : string :=
  match s with
  | EmptyString => EmptyString
  | String c r =>
      let k := Nat.pred n in
      if Nat.eqb (Nat.modulo k 3) 0 && negb (Nat.eqb k 0)
      then String c (String "," (group3_from r k))
      else String c (group3_from r k)
  end.

(** Groups of three digits separated by commas, from the right. *)
Definition group3 (s : string) : string := group3_from s (String.length s).

(** The integer nearest to [x] (a tie going away from zero), grouped, after
    the sign and the currency symbol. *)
Definition intl_integer (symbol : string) (x : float) : string :=
  let sign (s : bool) : string := if s then "-" else "" in
  match Prim2SF x with
  | S754_nan => symbol +:+ "NaN"
  | S754_infinity s => sign s +:+ symbol +:+ "∞"
  | S754_zero s => sign s +:+ symbol +:+ "0"
  | S754_finite s m e =>
      sign s +:+ symbol +:+ group3 (digitsZ (round_half_up_scaled (Z.pos m) e 0))
  end.

End JsNum.

(** ** Values and objects *)

Module Js.

(** The values the page handles: JSON scalars, [undefined], and the objects
    every object inherits from [Object.prototype] (kept with the text that
    [String(...)] gives for them). *)
Inductive JsVal : Type :=
| JUndefined
| JNull
| JNum (x : float)
| JStr (s : string)
| JNative (repr : string).

Definition nullish (v : JsVal) : bool :=
  match v with JUndefined | JNull => true | _ => false end.

Definition truthy (v : JsVal) : bool :=
  match v with
  | JUndefined | JNull => false
  | JNum x => negb (is_zero x || is_nan x)
  | JStr s => negb (String.eqb s "")
  | JNative _ => true
  end.

(** [a ?? b] and [a || b]. *)
Definition coalesce (a b : JsVal) : JsVal := if nullish a then b else a.
Definition or (a b : JsVal) : JsVal := if truthy a then a else b.

Definition ToNumber (v : JsVal) : float :=
  match v with
  | JUndefined => nan
  | JNull => zero
  | JNum x => x
  | JStr s => JsNum.StringToNumber s
  | JNative _ => nan
  end.

Definition ToString (v : JsVal) : string :=
  match v with
  | JUndefined => "undefined"
  | JNull => "null"
  | JNum x => JsNum.Number_toString x
  | JStr s => s
  | JNative r => r
  end.

Definition native_function (f : string) : string :=
  "function " +:+ f +:+ "() { [native code] }".

(** The properties of [Object.prototype], which a lookup reaches when the
    object has no property of its own under the key. *)
Definition object_prototype (k : string) : JsVal :=
  if String.eqb k "constructor" then JNative (native_function "Object")
  else if String.eqb k "__proto__" then JNative "[object Object]"
  else if existsb (String.eqb k)
            ["hasOwnProperty"; "isPrototypeOf"; "propertyIsEnumerable";
             "toLocaleString"; "toString"; "valueOf"; "__defineGetter__";
             "__defineSetter__"; "__lookupGetter__"; "__lookupSetter__"]
       then JNative (native_function k)
  else JUndefined.

(** [o[k]] on a plain object. *)
Definition get (o : gmap string JsVal) (k : string) : JsVal :=
  match o !! k with
  | Some v => v
  | None => object_prototype k
  end.

(** [o.k] when [o] may be [null] or [undefined]: [None] is the TypeError. *)
Definition member (o : option (gmap string JsVal)) (k : string) : option JsVal :=
  match o with
  | Some m => Some (get m k)
  | None => None
  end.

(** An object literal of string values; a key written twice keeps its
    last value. *)
Definition table (l : list (string * string)) : gmap string JsVal :=
  list_to_map (rev (List.map (fun kv => (fst kv, JStr (snd kv))) l)).

End Js.
Import Js.

(** ** The field registry *)

Inductive ValueType : Type := ApiData | UserInput | Calculated.

Record PropertyItem : Type := {
  name : string;
  value_type : ValueType;
  section : string;
  format : option string
}.

Definition item (n : string) (v : ValueType) (s f : string) : PropertyItem :=
  {| name := n; value_type := v; section := s; format := Some f |}.

Definition is_user_input (i : PropertyItem) : bool :=
  match value_type i with UserInput => true | _ => false end.
Definition is_calculated (i : PropertyItem) : bool :=
  match value_type i with Calculated => true | _ => false end.
Definition is_api_data (i : PropertyItem) : bool :=
  match value_type i with ApiData => true | _ => false end.

Definition format_is (f : string) (i : PropertyItem) : bool :=
  match format i with
  | Some g => String.eqb g f
  | None => false
  end.

(** One property of the response: [api_data], [calculated_data] and
    [user_inputs] are objects, or [None] when the field is [null] or left
    out. *)
Record Property : Type := {
  api_data : option (gmap string JsVal);
  calculated_data : option (gmap string JsVal);
  user_inputs : option (gmap string JsVal);
  cashflow_per_unit : float
}.

Record PropertyDetail : Type := { properties : list Property }.

Definition groupedItems : list (string * list PropertyItem) :=
 [("Property Info",
    [item "Fair Market Value" ApiData "Property Info" "currency";
     item "Vacancy Rate" UserInput "Property Info" "percentage";
     item "Management Rate" UserInput "Property Info" "percentage";
     item "Advertising Cost per Vacancy" UserInput "Property Info" "currency";
     item "Number of Units" ApiData "Property Info" "number";
     item "Annual Appreciation Rate" UserInput "Property Info" "percentage"]);
  ("Purchase Info",
    [item "Offer Price" ApiData "Purchase Info" "currency";
     item "Repairs" UserInput "Purchase Info" "currency";
     item "Repairs Contingency" UserInput "Purchase Info" "currency";
     item "Lender Fee" UserInput "Purchase Info" "currency";
     item "Broker Fee" UserInput "Purchase Info" "currency";
     item "Environmentals" UserInput "Purchase Info" "currency";
     item "Inspections" UserInput "Purchase Info" "currency";
     item "Appraisals" UserInput "Purchase Info" "currency";
     item "Misc" UserInput "Purchase Info" "currency";
     item "Transfer Tax" ApiData "Purchase Info" "currency";
     item "Legal" UserInput "Purchase Info" "currency";
     item "Real Purchase Price (RPP)" Calculated "Purchase Info" "currency"]);
  ("Financing (Monthly)",
    [item "1st Mtg Principle Borrowed" Calculated "Financing (Monthly)" "currency";
     item "1st Mtg Interest Rate" ApiData "Financing (Monthly)" "percentage";
     item "1st Mtg Amortization Period" UserInput "Financing (Monthly)" "number";
     item "1st Mtg CMHC Fee" UserInput "Financing (Monthly)" "percentage";
     item "1st Mtg Total Principle" Calculated "Financing (Monthly)" "currency";
     item "1st Mtg Total Monthly Payment" Calculated "Financing (Monthly)" "currency";
     item "2nd Mtg Principle Amount" UserInput "Financing (Monthly)" "currency";
     item "2nd Mtg Interest Rate" UserInput "Financing (Monthly)" "percentage";
     item "2nd Mtg Amortization Period" UserInput "Financing (Monthly)" "number";
     item "2nd Mtg Total Monthly Payment" Calculated "Financing (Monthly)" "currency";
     item "Interest Only Principle Amount" UserInput "Financing (Monthly)" "currency";
     item "Interest Only Interest Rate" UserInput "Financing (Monthly)" "percentage";
     item "Interest Only Total Monthly Payment" Calculated "Financing (Monthly)" "currency";
     item "Other Monthly Financing Costs" UserInput "Financing (Monthly)" "currency";
     item "Cash Required to Close" Calculated "Financing (Monthly)" "currency"]);
  ("Income (Annual)",
    [item "Gross Rents" ApiData "Income (Annual)" "currency";
     item "Parking" UserInput "Income (Annual)" "currency";
     item "Storage" UserInput "Income (Annual)" "currency";
     item "Laundry / Vending" UserInput "Income (Annual)" "currency";
     item "Other Income" UserInput "Income (Annual)" "currency";
     item "Total Income" Calculated "Income (Annual)" "currency";
     item "Vacancy Loss" Calculated "Income (Annual)" "currency";
     item "Effective Gross Income" Calculated "Income (Annual)" "currency"]);
  ("Operating Expenses (Annual)",
    [item "Property Taxes" ApiData "Operating Expenses (Annual)" "currency";
     item "Insurance" ApiData "Operating Expenses (Annual)" "currency";
     item "Repairs" UserInput "Operating Expenses (Annual)" "currency";
     item "Electricity" UserInput "Operating Expenses (Annual)" "currency";
     item "Gas" UserInput "Operating Expenses (Annual)" "currency";
     item "Lawn / Snow Maintenance" UserInput "Operating Expenses (Annual)" "currency";
     item "Water / Sewer" UserInput "Operating Expenses (Annual)" "currency";
     item "Cable" UserInput "Operating Expenses (Annual)" "currency";
     item "Management" Calculated "Operating Expenses (Annual)" "currency";
     item "Caretaking" UserInput "Operating Expenses (Annual)" "currency";
     item "Advertising" Calculated "Operating Expenses (Annual)" "currency";
     item "Association Fees" ApiData "Operating Expenses (Annual)" "currency";
     item "Pest Control" Calculated "Operating Expenses (Annual)" "currency";
     item "Security" Calculated "Operating Expenses (Annual)" "currency";
     item "Trash Removal" UserInput "Operating Expenses (Annual)" "currency";
     item "Miscellaneous" UserInput "Operating Expenses (Annual)" "currency";
     item "Common Area Maintenance" UserInput "Operating Expenses (Annual)" "currency";
     item "Capital Improvements" UserInput "Operating Expenses (Annual)" "currency";
     item "Accounting" UserInput "Operating Expenses (Annual)" "currency";
     item "Legal" UserInput "Operating Expenses (Annual)" "currency";
     item "Bad Debts" UserInput "Operating Expenses (Annual)" "currency";
     item "Other Expenses" UserInput "Operating Expenses (Annual)" "currency";
     item "Evictions" Calculated "Operating Expenses (Annual)" "currency";
     item "Total Expenses" Calculated "Operating Expenses (Annual)" "currency"]);
  ("Net Operating Income (Annual)",
    [item "Net Operating Income" Calculated "Net Operating Income (Annual)" "currency"]);
  ("Cash Requirements",
    [item "Deposit(s) made with Offer" UserInput "Cash Requirements" "currency";
     item "Less Pro-Ration of Rents" UserInput "Cash Requirements" "currency";
     item "Cash Required to Close" Calculated "Cash Requirements" "currency";
     item "Total Cash Required" Calculated "Cash Requirements" "currency"]);
  ("Cashflow Summary (Annual)",
    [item "Effective Gross Income" Calculated "Cashflow Summary (Annual)" "currency";
     item "Operating Expenses" Calculated "Cashflow Summary (Annual)" "currency";
     item "Net Operating Income" Calculated "Cashflow Summary (Annual)" "currency";
     item "Debt Servicing Costs" Calculated "Cashflow Summary (Annual)" "currency";
     item "Annual Profit or Loss" Calculated "Cashflow Summary (Annual)" "currency";
     item "Total Monthly Profit or Loss" Calculated "Cashflow Summary (Annual)" "currency";
     item "Cashflow per Unit per Month" Calculated "Cashflow Summary (Annual)" "currency"]);
  ("Quick Analysis",
    [item "1st Mortgage LTV" Calculated "Quick Analysis" "percentage";
     item "1st Mortgage LTPP" Calculated "Quick Analysis" "percentage";
     item "2nd Mortgage LTV" Calculated "Quick Analysis" "percentage";
     item "2nd Mortgage LTPP" Calculated "Quick Analysis" "percentage";
     item "Cap Rate on PP" Calculated "Quick Analysis" "percentage";
     item "Cap Rate on FMV" Calculated "Quick Analysis" "percentage";
     item "Average Rent" Calculated "Quick Analysis" "currency";
     item "GRM" Calculated "Quick Analysis" "number";
     item "DCR" Calculated "Quick Analysis" "number";
     item "Cash on Cash ROI" Calculated "Quick Analysis" "percentage";
     item "Equity ROI (After 1 Year)" Calculated "Quick Analysis" "percentage";
     item "Appreciation ROI (After 1 Year)" Calculated "Quick Analysis" "percentage";
     item "Total ROI (After 1 Year)" Calculated "Quick Analysis" "percentage";
     item "Forced App. ROI (After 1 Year)" Calculated "Quick Analysis" "percentage";
     item "Expense to Income Ratio" Calculated "Quick Analysis" "percentage"])].

Definition allItems : list PropertyItem := concat (List.map snd groupedItems).

(** ** Formatting *)

(** Display currency values without decimal points. *)
Definition formatCurrency (amount : float) : string := JsNum.intl_integer "$" amount.

(** Multiply percentage values by 100 and display 2 decimal places. *)
Definition formatPercentage (value : JsVal) : string :=
  JsNum.toFixed (ToNumber value * 100)%float 2 +:+ "%".

(** Display regular numbers without decimal points. *)
Definition formatNumber (value : float) : string := JsNum.intl_integer "" value.

Definition name_includes (i : PropertyItem) (t : string) : bool :=
  Str.includes t (Str.toLowerCase (name i)).

Definition formatValue (value : JsVal) (i : PropertyItem) : string :=
  if nullish value then "N/A" else
  let value :=
    if negb (format_is "percentage" i) && negb (name_includes i "rate")
       && negb (name_includes i "ratio")
    then JNum (JsNum.Math_round (ToNumber value)) else value in
  if format_is "percentage" i || name_includes i "rate" || name_includes i "ratio"
  then formatPercentage value
  else if format_is "currency" i || name_includes i "price"
          || name_includes i "cost" || name_includes i "value"
          || name_includes i "fee" || name_includes i "rent"
          || name_includes i "income" || name_includes i "expense"
          || name_includes i "tax" || name_includes i "insurance"
          || name_includes i "cashflow" || name_includes i "cash"
  then formatCurrency (ToNumber value)
  else match value with
       | JNum x => formatNumber x
       | _ => ToString value
       end.

(** ** Value resolution *)

(** [s.replace(/[^a-z0-9]/g, '_')]. *)
Definition replace_non_alnum : string -> string :=
  Str.map (fun c => if Str.is_lower c || Str.is_digit c then c else "_"%char).

(** [s.replace(/(?:^\w|[A-Z]|\b\w)/g, letter => letter.toLowerCase())]:
    every alternative is one character long, so the replacement goes
    character by character; [first] tells the start of the text and
    [prev_word] whether the character before is a word character. *)
Fixpoint lower_matches (first prev_word : bool) (s : string) : string :=
  match s with
  | EmptyString => EmptyString
  | String c r =>
      let hit := (first && Str.is_word c) || Str.is_upper c
                 || (negb prev_word && Str.is_word c) in
      String (if hit then Str.lower_char c else c)
             (lower_matches false (Str.is_word c) r)
  end.

(** The key [getValue] derives from the name of a user-input item. *)
Definition derivedKey (n : string) : string :=
  lower_matches true false (replace_non_alnum (Str.toLowerCase n)).

Definition keyMappings : gmap string JsVal :=
  table
    [("advertising_cost_per_vacancy", "advertising_cost_per_vacancy");
     ("laundry___vending", "laundry_vending");
     ("lawn___snow_maintenance", "lawn_maintenance");
     ("water___sewer", "water_sewer");
     ("deposit_s__made_with_offer", "deposit_with_offer");
     ("interest_only_principle_amount", "interest_only_principle");
     ("interest_only_interest_rate", "interest_only_rate");
     ("other_monthly_financing_costs", "other_monthly_financing");
     ("2nd_mtg_principle_amount", "second_mtg_principle");
     ("2nd_mtg_interest_rate", "second_mtg_interest_rate");
     ("2nd_mtg_amortization_period", "second_mtg_amortization");
     ("1st_mtg_amortization_period", "first_mtg_amortization_period");
     ("1st_mtg_cmhc_fee", "first_mtg_cmhc_fee");
     ("annual_appreciation_rate", "annual_appreciation_rate")].

Definition calculatedKeyMappings : gmap string JsVal :=
  table
    [("Real Purchase Price (RPP)", "Real Purchase Price");
     ("1st Mtg Principle Borrowed", "First Mortgage Principle Borrowed");
     ("1st Mtg Total Principle", "First Mortgage Total Principle");
     ("1st Mtg Total Monthly Payment", "First Mortgage Total Monthly Payment");
     ("2nd Mtg Total Monthly Payment", "Second Mortgage Total Monthly Payment");
     ("Vacancy Loss", "Vacancy Loss Percentage");
     ("1st Mortgage LTV", "First Mortgage LTV");
     ("1st Mortgage LTPP", "First Mortgage LTPP");
     ("2nd Mortgage LTV", "Second Mortgage LTV");
     ("2nd Mortgage LTPP", "Second Mortgage LTPP");
     ("Equity ROI (After 1 Year)", "Equity ROI after 1 Year");
     ("Appreciation ROI (After 1 Year)", "Appreciation ROI after 1 Year");
     ("Total ROI (After 1 Year)", "Total ROI after 1 Year");
     ("Forced App. ROI (After 1 Year)", "Forced App ROI after 1 Year")].

(** The property key under which [getValue] reads a user input. *)
Definition userInputKey (n : string) : string :=
  let key := derivedKey n in
  ToString (or (get keyMappings key) (JStr key)).

Definition calculatedKey (n : string) : string :=
  ToString (or (get calculatedKeyMappings n) (JStr n)).

(** The body of the [try] block: [None] when a member access throws. *)
Definition getValue_try (i : PropertyItem) (p : Property) : option JsVal :=
  let api (k : string) := member (api_data p) k in
  match value_type i with
  | ApiData =>
      let n := name i in
      if String.eqb n "Address" then
        v ← api "address"; Some (or v (JStr "Address not available"))
      else if String.eqb n "Fair Market Value" then api "fair_market_value"
      else if String.eqb n "Number of Units" then
        v ← api "number_of_units"; Some (or v (JNum 1))
      else if String.eqb n "Offer Price" then api "offer_price"
      else if String.eqb n "1st Mtg Interest Rate" then
        v ← api "first_mtg_interest_rate"; Some (or v (JNum 0))
      else if String.eqb n "Property Taxes" then
        v ← api "property_taxes";
        Some (JNum (JsNum.Math_round (ToNumber (or v (JNum 0)))))
      else if String.eqb n "Insurance" then
        v ← api "insurance"; Some (or v (JNum 0))
      else if String.eqb n "Association Fees" then
        v ← api "association_fees"; Some (or v (JNum 0))
      else if String.eqb n "Gross Rents" then
        v ← api "gross_rents"; Some (or v (JNum 0))
      else if String.eqb n "Transfer Tax" then
        v ← api "transfer_tax"; Some (or v (JNum 0))
      else Some (JNum 0)
  | UserInput =>
      v ← member (user_inputs p) (userInputKey (name i));
      Some (coalesce v (JNum 0))
  | Calculated =>
      v ← member (calculated_data p) (calculatedKey (name i));
      Some (coalesce v (JNum 0))
  end.

(** [getValue]: the [catch] clause turns a throw into a message. *)
Definition getValue (i : PropertyItem) (p : Property) : JsVal :=
  match getValue_try i p with
  | Some v => v
  | None => JStr "Error loading data"
  end.

(** ** Objects built by the page *)

Fixpoint distinct (l : list string) : bool :=
  match l with
  | [] => true
  | k :: r => negb (existsb (String.eqb k) r) && distinct r
  end.

(** An object under construction: own properties in the order
    [Object.keys] lists them, array indices first and in ascending order,
    then the other keys in the order of their creation. *)
Section Objects.
Context {A : Type}.

Definition Obj : Type := list (string * A).

(** The canonical text of an integer below [2^32 - 1]. *)
Definition array_index (k : string) : option Z :=
  let n := JsNum.digits_val k in
  if forallb Str.is_digit (list_ascii_of_string k)
     && String.eqb (JsNum.digitsZ n) k && (n <? 4294967295)
  then Some n else None.

Fixpoint has_key (k : string) (o : Obj) : bool :=
  match o with
  | [] => false
  | (k', _) :: r => String.eqb k' k || has_key k r
  end.

Fixpoint replace_value (k : string) (v : A) (o : Obj) : Obj :=
  match o with
  | [] => []
  | (k', v') :: r =>
      if String.eqb k' k then (k', v) :: r else (k', v') :: replace_value k v r
  end.

Fixpoint insert_index (n : Z) (k : string) (v : A) (o : Obj) : Obj :=
  match o with
  | [] => [(k, v)]
  | (k', v') :: r =>
      match array_index k' with
      | Some n' => if n' <? n then (k', v') :: insert_index n k v r
                   else (k, v) :: o
      | None => (k, v) :: o
      end
  end.

(** [o[k] = v].  Assigning to [__proto__] changes the prototype and
    creates no property. *)
Definition assign (o : Obj) (k : string) (v : A) : Obj :=
  if String.eqb k "__proto__" then o
  else if has_key k o then replace_value k v o
  else match array_index k with
       | Some n => insert_index n k v o
       | None => o ++ [(k, v)]
       end.

(** The entries an object holds under a key. *)
Definition entries_for (k : string) (o : Obj) : Obj :=
  List.filter (fun kv => String.eqb (fst kv) k) o.
End Objects.
Arguments Obj : clear implicits.

(** ** The page state and its handlers *)

Record State : Type := {
  query_id : option string;
  propertyDetail : option PropertyDetail;
  isLoading : bool;
  isRecalculating : bool;
  error : option string;
  modifiedValues : gmap string float
}.

(** The [useState] initial values, for the route parameter [i]. *)
Definition initialState (i : option string) : State :=
  {| query_id := i; propertyDetail := None; isLoading := true;
     isRecalculating := false; error := None; modifiedValues := ∅ |}.

Definition setPropertyDetail (d : PropertyDetail) (st : State) : State :=
  {| query_id := query_id st; propertyDetail := Some d; isLoading := isLoading st;
     isRecalculating := isRecalculating st; error := error st;
     modifiedValues := modifiedValues st |}.
Definition setIsLoading (b : bool) (st : State) : State :=
  {| query_id := query_id st; propertyDetail := propertyDetail st; isLoading := b;
     isRecalculating := isRecalculating st; error := error st;
     modifiedValues := modifiedValues st |}.
Definition setIsRecalculating (b : bool) (st : State) : State :=
  {| query_id := query_id st; propertyDetail := propertyDetail st;
     isLoading := isLoading st; isRecalculating := b; error := error st;
     modifiedValues := modifiedValues st |}.
Definition setError (e : option string) (st : State) : State :=
  {| query_id := query_id st; propertyDetail := propertyDetail st;
     isLoading := isLoading st; isRecalculating := isRecalculating st; error := e;
     modifiedValues := modifiedValues st |}.
Definition setModifiedValues (f : gmap string float -> gmap string float)
    (st : State) : State :=
  {| query_id := query_id st; propertyDetail := propertyDetail st;
     isLoading := isLoading st; isRecalculating := isRecalculating st;
     error := error st; modifiedValues := f (modifiedValues st) |}.
Definition setQueryId (i : option string) (st : State) : State :=
  {| query_id := i; propertyDetail := propertyDetail st; isLoading := isLoading st;
     isRecalculating := isRecalculating st; error := error st;
     modifiedValues := modifiedValues st |}.

(** [propertyDetail?.properties[0]]. *)
Definition currentProperty (st : State) : option Property :=
  d ← propertyDetail st; head (properties d).

(** [modifiedValues[k]]. *)
Definition modified (st : State) (k : string) : JsVal :=
  get (JNum <$> modifiedValues st) k.

(** [itemName.toLowerCase().replace(/ /g, '_')]. *)
Definition editKey (itemName : string) : string :=
  Str.map (fun c => if Ascii.eqb c " " then "_"%char else c) (Str.toLowerCase itemName).

(** [parseFloat(value) || 0]. *)
Definition parseFloat_or_0 (value : string) : float :=
  let x := JsNum.parseFloat value in
  if truthy (JNum x) then x else 0%float.

Definition handleValueChange (itemName value : string) (st : State) : State :=
  setModifiedValues (fun prev => <[editKey itemName := parseFloat_or_0 value]> prev) st.

Definition userInputMappings : list (string * string) :=
    [("vacancy_rate", "vacancy_rate");
     ("management_rate", "management_rate");
     ("advertising_cost_per_vacancy", "advertising_cost_per_vacancy");
     ("annual_appreciation_rate", "annual_appreciation_rate");
     ("repairs", "repairs");
     ("repairs_contingency", "repairs_contingency");
     ("lender_fee", "lender_fee");
     ("broker_fee", "broker_fee");
     ("environmentals", "environmentals");
     ("inspections", "inspections");
     ("appraisals", "appraisals");
     ("misc", "misc");
     ("legal", "legal");
     ("first_mtg_amortization_period", "first_mtg_amortization_period");
     ("first_mtg_cmhc_fee", "first_mtg_cmhc_fee");
     ("second_mtg_principle", "second_mtg_principle");
     ("second_mtg_interest_rate", "second_mtg_interest_rate");
     ("second_mtg_amortization", "second_mtg_amortization");
     ("interest_only_principle", "interest_only_principle");
     ("interest_only_rate", "interest_only_rate");
     ("other_monthly_financing", "other_monthly_financing");
     ("parking", "parking");
     ("storage", "storage");
     ("laundry_vending", "laundry_vending");
     ("other_income", "other_income");
     ("electricity", "electricity");
     ("gas", "gas");
     ("lawn_maintenance", "lawn_maintenance");
     ("water_sewer", "water_sewer");
     ("cable", "cable");
     ("caretaking", "caretaking");
     ("trash_removal", "trash_removal");
     ("miscellaneous", "miscellaneous");
     ("common_area_maintenance", "common_area_maintenance");
     ("capital_improvements", "capital_improvements");
     ("accounting", "accounting");
     ("bad_debts", "bad_debts");
     ("other_expenses", "other_expenses");
     ("deposit_with_offer", "deposit_with_offer");
     ("less_pro_ration_of_rents", "less_pro_ration_of_rents")].

(** The callback of the [forEach] over the entries of [userInputMappings];
    the snapshot is read only when there is no modified value. *)
Definition collect_entry (st : State) (property : Property)
    (acc : option (Obj JsVal)) (e : string * string) : option (Obj JsVal) :=
  currentValues ← acc;
  let m := modified st (fst e) in
  v ← (if nullish m
       then u ← member (user_inputs property) (snd e); Some (coalesce u (JNum 0))
       else Some m);
  Some (assign currentValues (fst e) v).

(** The values sent for recalculation; [None] when a member access
    throws. *)
Definition collectCurrentValues (st : State) : option (Obj JsVal) :=
  match currentProperty st with
  | None => Some []
  | Some property =>
      let api (k : string) := member (api_data property) k in
      address ← api "address";
      fair_market_value ← api "fair_market_value";
      number_of_units ← api "number_of_units";
      offer_price ← api "offer_price";
      transfer_tax ← api "transfer_tax";
      first_mtg_interest_rate ← api "first_mtg_interest_rate";
      gross_rents ← api "gross_rents";
      property_taxes ← api "property_taxes";
      insurance ← api "insurance";
      association_fees ← api "association_fees";
      let currentValues :=
        [("address", or address (JStr ""));
         ("fair_market_value", fair_market_value);
         ("number_of_units", number_of_units);
         ("offer_price", offer_price);
         ("transfer_tax", transfer_tax);
         ("first_mtg_interest_rate", first_mtg_interest_rate);
         ("gross_rents", gross_rents);
         ("property_taxes", property_taxes);
         ("insurance", insurance);
         ("association_fees", association_fees)] in
      fold_left (collect_entry st property) userInputMappings (Some currentValues)
  end.

(** Requests handed to the transport. *)
Inductive Request : Type :=
| GetProperty (property_id : string)
| PostRecalculate (property_id : option string) (values : Obj JsVal)
| PostSaveProperty (property_id : option string) (property_data : option Property)
| PostUserInputs (inputs : option (gmap string JsVal)).

(** [fetchPropertyDetail] up to its [await]. *)
Definition fetchPropertyDetail (st : State) : State * list Request :=
  match query_id st with
  | Some i =>
      if String.eqb i "" then (st, [])
      else (setError None (setIsLoading true st), [GetProperty i])
  | None => (st, [])
  end.

(** [handleRecalculate] up to its [await]; a throw of
    [collectCurrentValues] lands in the [catch] and [finally] clauses. *)
Definition handleRecalculate (st : State) : State * list Request :=
  let st1 := setIsRecalculating true st in
  match collectCurrentValues st1 with
  | Some updatedValues => (st1, [PostRecalculate (query_id st1) updatedValues])
  | None =>
      (setIsRecalculating false (setError (Some "Failed to recalculate values") st1), [])
  end.

(** [handleRecalculate] after its [await]: the response, or the rejection. *)
Definition handleRecalculate_resolved (data : PropertyDetail) (st : State) : State :=
  setIsRecalculating false (setPropertyDetail data st).
Definition handleRecalculate_rejected (st : State) : State :=
  setIsRecalculating false (setError (Some "Failed to recalculate values") st).

Definition fetchPropertyDetail_resolved (data : PropertyDetail) (st : State) : State :=
  setIsLoading false (setPropertyDetail data st).
Definition fetchPropertyDetail_rejected (message : string) (st : State) : State :=
  setIsLoading false (setError (Some message) st).

(** [handleSaveProperty] and [handleSaveDefaultInputs] up to their [await],
    with the token read from the local storage. *)
Definition handleSaveProperty (token : option string) (st : State)
    : State * list Request :=
  match token with
  | Some t =>
      if String.eqb t "" then (setError (Some "Please login to save properties") st, [])
      else (st, [PostSaveProperty (query_id st) (currentProperty st)])
  | None => (setError (Some "Please login to save properties") st, [])
  end.

Definition handleSaveDefaultInputs (token : option string) (st : State)
    : State * list Request :=
  let login := setError (Some "Please login to save default inputs") st in
  match token with
  | Some t =>
      if String.eqb t "" then (login, [])
      else match propertyDetail st with
           | None => (st, [PostUserInputs None])
           | Some d =>
               match head (properties d) with
               | Some p => (st, [PostUserInputs (user_inputs p)])
               | None => (setError (Some "Failed to save default inputs") st, [])
               end
           end
  | None => (login, [])
  end.

(** ** Rendering *)

(** The percentage fields shown multiplied by 100 in their input. *)
Definition percentScaled (n : string) : bool :=
  existsb (String.eqb n)
    ["Vacancy Rate"; "Management Rate"; "1st Mtg Interest Rate";
     "2nd Mtg Interest Rate"; "1st Mtg CMHC Fee"; "Interest Only Interest Rate";
     "Annual Appreciation Rate"].

(** [displayValue] of the percentage input; [None] when [toFixed] is
    called on a value that is not a number. *)
Definition displayValue (n : string) (inputValue : JsVal) : option float :=
  if percentScaled n
  then Some (JsNum.parseFloat (JsNum.toFixed (ToNumber inputValue * 100)%float 2))
  else match inputValue with
       | JNum x => Some (JsNum.parseFloat (JsNum.toFixed x 2))
       | _ => None
       end.

(** [newValue] of the percentage input, for the text typed in it. *)
Definition newValue (n : string) (text : string) : float :=
  if percentScaled n then (JsNum.parseFloat text / 100)%float
  else JsNum.parseFloat text.

(** What a table cell shows. *)
Inductive Rendered : Type :=
| AddressText (value : JsVal)
| CurrencyInput (value : JsVal)
| PercentInput (value : float)
| NumberInput (value : JsVal)
| Text (s : string).

Definition inputValue (st : State) (i : PropertyItem) (value : JsVal) : JsVal :=
  coalesce (modified st (editKey (name i))) (coalesce value (JNum 0)).

Definition renderValue (st : State) (i : PropertyItem) (property : Property)
    : option Rendered :=
  let value := getValue i property in
  if String.eqb (name i) "Address" then Some (AddressText value)
  else if is_api_data i || is_user_input i then
    let inputValue := inputValue st i value in
    if format_is "currency" i then Some (CurrencyInput inputValue)
    else if format_is "percentage" i then
      d ← displayValue (name i) inputValue; Some (PercentInput d)
    else Some (NumberInput inputValue)
  else Some (Text (formatValue (coalesce value (JNum 0)) i)).

(** The [onChange] handler of the input rendered for an item. *)
Definition onChange (i : PropertyItem) (text : string) (st : State) : State :=
  if format_is "currency" i then handleValueChange (name i) text st
  else if format_is "percentage" i then
    handleValueChange (name i) (JsNum.Number_toString (newValue (name i) text)) st
  else handleValueChange (name i) text st.

(** ** Events *)

(** What the page shows: the spinner, the error with its "Try Again"
    button, the notice that there is no data, or the report.  [view] tells
    which of the four returns of the component is taken; the header of the
    report then reads [property.api_data.address], so that [Showing] on a
    snapshot without [api_data] is the branch whose render throws. *)
Inductive View : Type :=
| Loading
| Failed (message : string)
| NoProperty
| Showing (property : Property).

Definition view (st : State) : View :=
  if isLoading st then Loading
  else
    let report := match currentProperty st with
                  | Some p => Showing p
                  | None => NoProperty
                  end in
    match error st with
    | Some m => if String.eqb m "" then report else Failed m
    | None => report
    end.

Definition value_type_eqb (a b : ValueType) : bool :=
  match a, b with
  | ApiData, ApiData | UserInput, UserInput | Calculated, Calculated => true
  | _, _ => false
  end.

Definition item_eqb (a b : PropertyItem) : bool :=
  String.eqb (name a) (name b) && value_type_eqb (value_type a) (value_type b)
  && String.eqb (section a) (section b)
  && match format a, format b with
     | Some f, Some g => String.eqb f g
     | None, None => true
     | _, _ => false
     end.

(** The items of the report shown with an input. *)
Definition has_input (i : PropertyItem) : bool :=
  existsb (item_eqb i) allItems
  && negb (String.eqb (name i) "Address") && (is_api_data i || is_user_input i).

(** The events of one mounted instance of the page: what the user does on
    it, what its requests bring, and the route parameter changing in
    place.  Opening the page is an [Action] of the tab, below. *)
Inductive Event : Type :=
| RouteChange (new_id : option string)
| FetchResolved (data : PropertyDetail)
| FetchRejected (message : string)
| ClickTryAgain
| ClickRecalculate
| RecalculateResolved (data : PropertyDetail)
| RecalculateRejected
| ClickSaveProperty (token : option string)
| SavePropertyRejected
| ClickSaveUserInputs (token : option string)
| SaveUserInputsRejected
| InputChange (i : PropertyItem) (text : string).

(** The effect on [[id]] runs when the identifier is not the one of
    the render before. *)
Definition same_id (a b : option string) : bool :=
  match a, b with
  | Some x, Some y => String.eqb x y
  | None, None => true
  | _, _ => false
  end.

(** The first render, for the route parameter [i], and its effect. *)
Definition mount (i : option string) : State * list Request :=
  fetchPropertyDetail (initialState i).

Definition showing (st : State) : bool :=
  match view st with Showing _ => true | _ => false end.

(** One event handled to completion: the new state and the requests sent.
    A click or an input change happens only on what the page shows, and
    the recalculate button is disabled while a recalculation is pending;
    the transport settles a request at any later time. *)
Definition step (st : State) (e : Event) : State * list Request :=
  match e with
  | RouteChange new_id =>
      if same_id new_id (query_id st) then (st, [])
      else fetchPropertyDetail (setQueryId new_id st)
  | FetchResolved data => (fetchPropertyDetail_resolved data st, [])
  | FetchRejected message => (fetchPropertyDetail_rejected message st, [])
  | ClickTryAgain =>
      match view st with
      | Failed _ => fetchPropertyDetail (setError None st)
      | _ => (st, [])
      end
  | ClickRecalculate =>
      if showing st && negb (isRecalculating st) then handleRecalculate st
      else (st, [])
  | RecalculateResolved data => (handleRecalculate_resolved data st, [])
  | RecalculateRejected => (handleRecalculate_rejected st, [])
  | ClickSaveProperty token =>
      if showing st then handleSaveProperty token st else (st, [])
  | SavePropertyRejected => (setError (Some "Failed to save property") st, [])
  | ClickSaveUserInputs token =>
      if showing st then handleSaveDefaultInputs token st else (st, [])
  | SaveUserInputsRejected => (setError (Some "Failed to save default inputs") st, [])
  | InputChange i text =>
      if showing st && has_input i then (onChange i text st, []) else (st, [])
  end.

Definition run (st : State) (es : list Event) : State :=
  fold_left (fun s e => fst (step s e)) es st.

Definition is_input_change (e : Event) : bool :=
  match e with InputChange _ _ => true | _ => false end.

(** The snapshot on display. *)
Definition snapshot (st : State) : option PropertyDetail := propertyDetail st.

(** ** Navigation *)









(** ** Key-case conversion (account page) *)

Module CaseConv.

Inductive Json : Type :=
| Scalar (v : JsVal)
| Array (items : list Json)
| Object (fields : list (string * Json)).

(** [key.replace(/_([a-z])/g, (_, letter) => letter.toUpperCase())]. *)
Fixpoint snakeToCamelKey (key : string) : string :=
  match key with
  | EmptyString => EmptyString
  | String c r =>
      match r with
      | String d r' =>
          if Ascii.eqb c "_" && Str.is_lower d
          then String (Str.upper_char d) (snakeToCamelKey r')
          else String c (snakeToCamelKey r)
      | EmptyString => String c EmptyString
      end
  end.

(** [key.replace(/[A-Z]/g, letter => `_${letter.toLowerCase()}`)]. *)
Fixpoint camelToSnakeKey (key : string) : string :=
  match key with
  | EmptyString => EmptyString
  | String c r =>
      if Str.is_upper c then String "_" (String (Str.lower_char c) (camelToSnakeKey r))
      else String c (camelToSnakeKey r)
  end.

(** [Object.keys(obj).reduce((acc, key) => { acc[f(key)] = g(obj[key]);
    return acc }, {})]. *)
Definition rekey (f : string -> string) (g : Json -> Json)
    (fields : list (string * Json)) : list (string * Json) :=
  fold_left (fun acc kv => assign acc (f (fst kv)) (g (snd kv))) fields [].

Fixpoint convertSnakeToCamel (obj : Json) : Json :=
  match obj with
  | Scalar v => Scalar v
  | Array items => Array (List.map convertSnakeToCamel items)
  | Object fields =>
      Object (fold_left
                (fun acc kv =>
                   assign acc (snakeToCamelKey (fst kv)) (convertSnakeToCamel (snd kv)))
                fields [])
  end.

Fixpoint convertCamelToSnake (obj : Json) : Json :=
  match obj with
  | Scalar v => Scalar v
  | Array items => Array (List.map convertCamelToSnake items)
  | Object fields =>
      Object (fold_left
                (fun acc kv =>
                   assign acc (camelToSnakeKey (fst kv)) (convertCamelToSnake (snd kv)))
                fields [])
  end.

(** The keys of every object of a value all satisfy [P]. *)
Fixpoint keys_ok (P : string -> bool) (j : Json) : bool :=
  match j with
  | Scalar _ => true
  | Array items => forallb (keys_ok P) items
  | Object fields =>
      forallb (fun kv => P (fst kv) && keys_ok P (snd kv)) fields
  end.

(** A value as [JSON.parse] gives it: no object holds a key twice and the
    scalars are JSON scalars. *)
Fixpoint well_formed (j : Json) : bool :=
  match j with
  | Scalar (JNative _) => false
  | Scalar _ => true
  | Array items => forallb well_formed items
  | Object fields =>
      distinct (List.map fst fields) && forallb (fun kv => well_formed (snd kv)) fields
  end.

End CaseConv.

(** The keys of the sourced facts, as [getValue] and [collectCurrentValues]
    read them. *)
Definition apiDataKeys : list string :=
  ["address"; "fair_market_value"; "number_of_units"; "offer_price";
   "transfer_tax"; "first_mtg_interest_rate"; "gross_rents"; "property_taxes";
   "insurance"; "association_fees"].

(** The names the sourced branch of [getValue] has a case for. *)
Definition sourcedNames : list string :=
  ["Address"; "Fair Market Value"; "Number of Units"; "Offer Price";
   "1st Mtg Interest Rate"; "Property Taxes"; "Insurance"; "Association Fees";
   "Gross Rents"; "Transfer Tax"].

Definition userInputItems : list PropertyItem := List.filter is_user_input allItems.

(** The snake-style keys of the registry: the sourced facts and the user
    inputs. *)
Definition canonicalKeys : list string :=
  apiDataKeys ++ List.map (fun i => userInputKey (name i)) userInputItems.

Definition is_canonical (k : string) : bool := existsb (String.eqb k) canonicalKeys.

Definition no_upper (s : string) : bool :=
  forallb (fun c => negb (Str.is_upper c)) (list_ascii_of_string s).

(** A key an assignment creates at the end of an object: neither
    [__proto__] nor an array index. *)
Definition assignable (k : string) : bool :=
  negb (String.eqb k "__proto__")
  && match array_index k with Some _ => false | None => true end.

(** A key with no capital letter that is neither an array index nor
    [__proto__]. *)
Definition plain_key (k : string) : bool := no_upper k && assignable k.

(** The value [collectCurrentValues] is to send for a user input: the
    pending edit, else the stored input when there is one that is not
    null, else zero. *)
Definition payloadValue (st : State) (u : gmap string JsVal) (k : string) : JsVal :=
  match modifiedValues st !! k with
  | Some x => JNum x
  | None =>
      match u !! k with
      | Some v => if nullish v then JNum 0 else v
      | None => JNum 0
      end
  end.

(** ** The normalisation as the specification words it *)

(** Every run of characters that are not alphanumeric becomes one
    underscore. *)
Fixpoint collapse_runs (in_run : bool) (s : string) : string :=
  match s with
  | EmptyString => EmptyString
  | String c r =>
      if Str.is_lower c || Str.is_digit c then String c (collapse_runs false r)
      else if in_run then collapse_runs true r
      else String "_" (collapse_runs true r)
  end.

Fixpoint trim_leading_underscores (s : string) : string :=
  match s with
  | String "_" r => trim_leading_underscores r
  | _ => s
  end.

Definition trim_underscores (s : string) : string :=
  Str.strip_trailing (Ascii.eqb "_") (trim_leading_underscores s).

(** The override table of the user inputs, read as a table. *)
Definition override (k : string) : string :=
  match keyMappings !! k with
  | Some v => ToString v
  | None => k
  end.

(** Lowercase, collapse runs, trim, then override. *)
Definition normalize_spec (displayName : string) : string :=
  override (trim_underscores (collapse_runs false (Str.toLowerCase displayName))).

(** Lowercase and replace character by character, then override. *)
Definition normalize_by_character (displayName : string) : string :=
  override (replace_non_alnum (Str.toLowerCase displayName)).

(** The names of [Object.prototype] written without a capital letter. *)
Definition inheritedKeys : list string := ["constructor"; "__proto__"].

(** Percent values with two fractional digits, as numbers and as typed. *)
Definition hundredths (n : Z) : float := (JsNum.Z2float n / 100)%float.
Definition percentText (n : Z) : string := JsNum.toFixed (hundredths n) 2.

(** What [handleValueChange] stores for [text] typed in the percentage
    input of the item named [n]. *)
Definition storedValue (n text : string) : float :=
  parseFloat_or_0 (JsNum.Number_toString (newValue n text)).

(** For the percent [k / 100]: typing it stores a fraction which is shown
    as the percent typed, and typing what is shown stores that fraction
    again. *)
Definition percent_round_trip (n : string) (k : Z) : bool :=
  let raw := storedValue n (percentText k) in
  match displayValue n (JNum raw) with
  | Some shown =>
      PrimFloat.Leibniz.eqb shown (hundredths k)
      && PrimFloat.Leibniz.eqb (storedValue n (JsNum.Number_toString shown)) raw
  | None => false
  end.

(** Percents in hundredths: 0.00 to 10.00 in steps of 0.01, then the whole
    percents up to 100. *)
Definition percentSamples : list Z :=
  List.map Z.of_nat (seq 0 1001)
  ++ List.map (fun p => 100 * Z.of_nat p) (seq 11 90).

Definition editablePercentItems : list PropertyItem :=
  List.filter (fun i => (is_api_data i || is_user_input i) && format_is "percentage" i)
    allItems.


(** ** Sample data *)

Module Sample.

Definition fairMarketValue : PropertyItem :=
  item "Fair Market Value" ApiData "Property Info" "currency".
Definition vacancyRate : PropertyItem :=
  item "Vacancy Rate" UserInput "Property Info" "percentage".
Definition totalIncome : PropertyItem :=
  item "Total Income" Calculated "Income (Annual)" "currency".
Definition proRation : PropertyItem :=
  item "Less Pro-Ration of Rents" UserInput "Cash Requirements" "currency".
Definition depositWithOffer : PropertyItem :=
  item "Deposit(s) made with Offer" UserInput "Cash Requirements" "currency".
(** A sourced item the registry does not declare. *)
Definition lotSize : PropertyItem :=
  item "Lot Size" ApiData "Property Info" "number".

Definition property (api calc inputs : gmap string JsVal) : Property :=
  {| api_data := Some api; calculated_data := Some calc; user_inputs := Some inputs;
     cashflow_per_unit := 0%float |}.

Definition detail (p : Property) : PropertyDetail := {| properties := [p] |}.

Definition houseApi : gmap string JsVal :=
  list_to_map [("address", JStr "12 Elm Street");
               ("fair_market_value", JNum 450000%float)].
Definition houseInputs : gmap string JsVal :=
  list_to_map [("vacancy_rate", JNum 0.05%float); ("repairs", JNull)].

Definition house : Property :=
  property houseApi (list_to_map [("Total Income", JNum 0%float)]) houseInputs.


Definition flat : Property :=
  property (list_to_map [("address", JStr "7 Oak Avenue");
                         ("fair_market_value", JNum 200000%float)])
           (list_to_map [("Total Income", JNum 24000%float)])
           (list_to_map [("vacancy_rate", JNum 0.1%float)]).

(** The house as the service recalculates it. *)
Definition houseRecalculated : Property :=
  property houseApi (list_to_map [("Total Income", JNum 36000%float)])
           (list_to_map [("vacancy_rate", JNum 0.06%float)]).

(** A property with [api_data] left out. *)
Definition broken : Property :=
  {| api_data := None; calculated_data := None; user_inputs := None;
     cashflow_per_unit := 0%float |}.

(** Viewing the house, with 6 typed in the vacancy rate. *)
Definition editing : State :=
  run (fst (mount (Some "P1")))
      [FetchResolved (detail house); InputChange vacancyRate "6"].

(** The page showing a property whose sourced facts are missing. *)
Definition showingBroken : State :=
  run (fst (mount (Some "P9"))) [FetchResolved (detail broken)].



Definition nested : CaseConv.Json :=
  CaseConv.Object
    [("vacancy_rate", CaseConv.Scalar (JNum 0.05%float));
     ("first_mtg_cmhc_fee",
      CaseConv.Array
        [CaseConv.Object [("less_pro_ration_of_rents", CaseConv.Scalar JNull)];
         CaseConv.Scalar (JStr "n/a")]);
     ("address", CaseConv.Scalar (JStr "12 Elm Street"))].

End Sample.

(** ** Further definitions: the report and its inputs *)

(** The items an input is rendered for, by value type and name. *)
Definition editable (i : PropertyItem) : bool :=
  negb (String.eqb (name i) "Address") && (is_api_data i || is_user_input i).

(** The keys under which the inputs of the registry record their edits. *)
Definition inputEditKeys : list string :=
  List.map (fun i => editKey (name i)) (List.filter editable allItems).

(** Whether the key an edit of the item is recorded under is one that
    [collectCurrentValues] reads. *)
Definition sentWhenEdited (i : PropertyItem) : bool :=
  existsb (String.eqb (editKey (name i))) (List.map fst userInputMappings).

(** The names [formatValue] reads as a percentage, and as a currency. *)
Definition namedAsPercentage (i : PropertyItem) : bool :=
  name_includes i "rate" || name_includes i "ratio".

Definition namedAsCurrency (i : PropertyItem) : bool :=
  existsb (name_includes i)
    ["price"; "cost"; "value"; "fee"; "rent"; "income"; "expense"; "tax";
     "insurance"; "cashflow"; "cash"].

(** Whether the name of an item leads [formatValue] to the format the item
    declares. *)
Definition nameAgreesWithFormat (i : PropertyItem) : bool :=
  format_is "percentage" i
  || (format_is "currency" i && negb (namedAsPercentage i))
  || (format_is "number" i && negb (namedAsPercentage i) && negb (namedAsCurrency i)).

(** Every pending edit is a number other than NaN, under the edit key of an
    input of the registry. *)
Definition edits_ok (m : gmap string float) : Prop :=
  forall (k : string) (x : float),
    m !! k = Some x -> is_nan x = false /\ In k inputEditKeys.

(** The object literal [collectCurrentValues] starts from, for the sourced
    facts [a]. *)
Definition sourcedEntries (a : gmap string JsVal) : Obj JsVal :=
  [("address", or (get a "address") (JStr ""));
   ("fair_market_value", get a "fair_market_value");
   ("number_of_units", get a "number_of_units");
   ("offer_price", get a "offer_price");
   ("transfer_tax", get a "transfer_tax");
   ("first_mtg_interest_rate", get a "first_mtg_interest_rate");
   ("gross_rents", get a "gross_rents");
   ("property_taxes", get a "property_taxes");
   ("insurance", get a "insurance");
   ("association_fees", get a "association_fees")].

(** The items with an input whose edits [collectCurrentValues] does not
    read. *)
Definition editsNotSent : list PropertyItem :=
  List.filter (fun i => editable i && negb (sentWhenEdited i)) allItems.

(** ** Further definitions: the account page *)

(** A key in camel style: no "_" of it is followed by a lower-case
    letter. *)
Fixpoint camel_style (k : string) : bool :=
  match k with
  | EmptyString => true
  | String c r =>
      match r with
      | String d _ => negb (Ascii.eqb c "_" && Str.is_lower d)
      | EmptyString => true
      end
      && camel_style r
  end.

(** A camel-style key whose snake-style form an assignment creates: the
    key is neither an array index nor [__proto__], and does not convert
    to [__proto__]. *)
Definition camel_key (k : string) : bool :=
  camel_style k && assignable k && negb (String.eqb k "_Proto__").

(** The account page ([frontend/src/pages/mypage.tsx]): the profile form,
    the investment parameters and their requests.  The state holds what
    these handlers read and write; the token of the local storage and the
    one of the authentication context are arguments. *)
Module MyPage.
Import CaseConv.

Section Literals.
Context {A : Type}.

(** [{ ...o, [k]: v }]: a computed key defines the property, also under
    [__proto__]. *)
Definition define (o : Obj A) (k : string) (v : A) : Obj A :=
  if has_key k o then replace_value k v o
  else match array_index k with
       | Some n => insert_index n k v o
       | None => o ++ [(k, v)]
       end.

(** The own property [o[k]]. *)
Fixpoint own (o : Obj A) (k : string) : option A :=
  match o with
  | [] => None
  | (k', v) :: r => if String.eqb k' k then Some v else own r k
  end.
End Literals.

(** A value taken as a condition. *)
Definition truthyJson (j : Json) : bool :=
  match j with
  | Scalar v => truthy v
  | Array _ | Object _ => true
  end.

Fixpoint indexed (n : Z) (items : list Json) : Obj Json :=
  match items with
  | [] => []
  | x :: r => (JsNum.digitsZ n, x) :: indexed (n + 1) r
  end.

(** [{ ...j }]: the own enumerable properties of an object, the items of
    an array and the characters of a text under their indices, nothing
    for another scalar. *)
Definition spread (j : Json) : Obj Json :=
  match j with
  | Object fields => fields
  | Array items => indexed 0 items
  | Scalar (JStr s) =>
      indexed 0 (List.map (fun c => Scalar (JStr (String c EmptyString)))
                   (list_ascii_of_string s))
  | Scalar _ => []
  end.

(** [a || b] on texts that may be [null] or [undefined]. *)
Definition or_else (a b : option string) : option string :=
  match a with
  | Some s => if String.eqb s "" then b else a
  | None => b
  end.

Definition truthyText (a : option string) : bool :=
  match a with
  | Some s => negb (String.eqb s "")
  | None => false
  end.

(** [a !== b]. *)
Definition differ (a b : option string) : bool :=
  match a, b with
  | Some s, Some t => negb (String.eqb s t)
  | None, None => false
  | _, _ => true
  end.

Record User : Type := { email : string; username : string }.

Record State : Type := {
  userInputs : option Json;
  error : string;
  isEditing : bool;
  profileForm : Obj string;
  profileSuccess : string;
  isEditingParams : bool;
  paramsForm : option (Obj Json);
  paramsSuccess : string
}.

Definition emptyProfileForm (name : string) : Obj string :=
  [("username", name); ("currentPassword", ""); ("newPassword", "");
   ("confirmPassword", "")].

(** The [useState] initial values. *)
Definition initialState : State :=
  {| userInputs := None; error := ""; isEditing := false;
     profileForm := emptyProfileForm ""; profileSuccess := "";
     isEditingParams := false; paramsForm := None; paramsSuccess := "" |}.

Definition setUserInputs (u : option Json) (st : State) : State :=
  {| userInputs := u; error := error st; isEditing := isEditing st;
     profileForm := profileForm st; profileSuccess := profileSuccess st;
     isEditingParams := isEditingParams st; paramsForm := paramsForm st;
     paramsSuccess := paramsSuccess st |}.
Definition setError (e : string) (st : State) : State :=
  {| userInputs := userInputs st; error := e; isEditing := isEditing st;
     profileForm := profileForm st; profileSuccess := profileSuccess st;
     isEditingParams := isEditingParams st; paramsForm := paramsForm st;
     paramsSuccess := paramsSuccess st |}.
Definition setIsEditing (b : bool) (st : State) : State :=
  {| userInputs := userInputs st; error := error st; isEditing := b;
     profileForm := profileForm st; profileSuccess := profileSuccess st;
     isEditingParams := isEditingParams st; paramsForm := paramsForm st;
     paramsSuccess := paramsSuccess st |}.
Definition setProfileForm (f : Obj string -> Obj string) (st : State) : State :=
  {| userInputs := userInputs st; error := error st; isEditing := isEditing st;
     profileForm := f (profileForm st); profileSuccess := profileSuccess st;
     isEditingParams := isEditingParams st; paramsForm := paramsForm st;
     paramsSuccess := paramsSuccess st |}.
Definition setProfileSuccess (s : string) (st : State) : State :=
  {| userInputs := userInputs st; error := error st; isEditing := isEditing st;
     profileForm := profileForm st; profileSuccess := s;
     isEditingParams := isEditingParams st; paramsForm := paramsForm st;
     paramsSuccess := paramsSuccess st |}.
Definition setIsEditingParams (b : bool) (st : State) : State :=
  {| userInputs := userInputs st; error := error st; isEditing := isEditing st;
     profileForm := profileForm st; profileSuccess := profileSuccess st;
     isEditingParams := b; paramsForm := paramsForm st;
     paramsSuccess := paramsSuccess st |}.
Definition setParamsForm (f : option (Obj Json) -> option (Obj Json)) (st : State)
    : State :=
  {| userInputs := userInputs st; error := error st; isEditing := isEditing st;
     profileForm := profileForm st; profileSuccess := profileSuccess st;
     isEditingParams := isEditingParams st; paramsForm := f (paramsForm st);
     paramsSuccess := paramsSuccess st |}.
Definition setParamsSuccess (s : string) (st : State) : State :=
  {| userInputs := userInputs st; error := error st; isEditing := isEditing st;
     profileForm := profileForm st; profileSuccess := profileSuccess st;
     isEditingParams := isEditingParams st; paramsForm := paramsForm st;
     paramsSuccess := s |}.

(** The body of the profile update as [JSON.stringify] writes it: a member
    that is [undefined] is left out. *)
Record ProfileUpdate : Type := {
  body_username : option string;
  current_password : option string;
  new_password : option string
}.

(** Requests handed to [fetch], with the token of their [Authorization]
    header; [values] is what [JSON.stringify] is given. *)
Inductive Request : Type :=
| PutProfile (savedToken : option string) (body : ProfileUpdate)
| PostInputs (savedToken : option string) (values : Json).

Definition handleProfileChange (name value : string) (st : State) : State :=
  setProfileForm (fun prev => define prev name value) st.

Definition startEditing (user : option User) (st : State) : State :=
  let st1 := match user with
             | Some u => setProfileForm (fun _ => emptyProfileForm (username u)) st
             | None => st
             end in
  setProfileSuccess "" (setError "" (setIsEditing true st1)).

Definition cancelEditing (st : State) : State :=
  setProfileSuccess "" (setError "" (setIsEditing false st)).

(** [handleProfileSubmit] up to its [await]; [stored] is the token of the
    local storage and [token] the one of the context. *)
Definition handleProfileSubmit (stored token : option string) (st : State)
    : State * list Request :=
  let st1 := setProfileSuccess "" (setError "" st) in
  let form := profileForm st in
  let send :=
    (st1,
     [PutProfile (or_else stored token)
        {| body_username := own form "username";
           current_password := or_else (own form "currentPassword") None;
           new_password := or_else (own form "newPassword") None |}]) in
  if truthyText (own form "newPassword") then
    if differ (own form "newPassword") (own form "confirmPassword")
    then (setError "New passwords do not match" st1, [])
    else if negb (truthyText (own form "currentPassword"))
    then (setError "Current password is required to change password" st1, [])
    else send
  else send.

Definition num (x : float) : Json := Scalar (JNum x).

(** The parameters the form starts from when there are no user inputs. *)
Definition defaultParams : Obj Json :=
  [("vacancyRate", num 5); ("managementRate", num 10);
   ("advertisingCostPerVacancy", num 100); ("repairs", num 5000);
   ("repairsContingency", num 0); ("lenderFee", num 10000);
   ("brokerFee", num 500); ("environmentals", num 0);
   ("inspections", num 1300); ("appraisals", num 1000); ("misc", num 500);
   ("legal", num 4000); ("mtgAmortizationPeriod", num 30);
   ("firstMtgInterestRate", num 6.5); ("firstMtgAmortizationPeriod", num 30);
   ("firstMtgCMHCFee", num 0); ("secondMtgPrinciple", num 0);
   ("secondMtgInterestRate", num 12); ("secondMtgAmortization", num 9999);
   ("interestOnlyPrinciple", num 0); ("interestOnlyRate", num 0);
   ("otherMonthlyFinancing", num 0)].

Definition startEditingParams (st : State) : State :=
  let form := match userInputs st with
              | Some u => if truthyJson u then spread u else defaultParams
              | None => defaultParams
              end in
  setParamsSuccess ""
    (setError "" (setIsEditingParams true (setParamsForm (fun _ => Some form) st))).

Definition cancelEditingParams (st : State) : State :=
  setParamsSuccess "" (setError "" (setIsEditingParams false st)).

Definition handleParamsChange (name value : string) (st : State) : State :=
  setParamsForm
    (fun prev =>
       match prev with
       | None => None
       | Some form => Some (define form name (num (parseFloat_or_0 value)))
       end) st.

(** [handleParamsSubmit] up to its [await]. *)
Definition handleParamsSubmit (stored token : option string) (st : State)
    : State * list Request :=
  let st1 := setParamsSuccess "" (setError "" st) in
  match paramsForm st with
  | None => (st1, [])
  | Some form =>
      (st1, [PostInputs (or_else stored token) (convertCamelToSnake (Object form))])
  end.

(** [handleParamsSubmit] after a response that is [ok] and whose body is
    an object: [user_inputs] is its member of that name, [None] when it
    has none. *)
Definition handleParamsSubmit_resolved (user_inputs : option Json) (st : State)
    : State :=
  let st1 := match user_inputs with
             | Some j => if truthyJson j
                         then setUserInputs (Some (convertSnakeToCamel j)) st
                         else st
             | None => st
             end in
  setIsEditingParams false
    (setParamsSuccess "Investment parameters updated successfully" st1).

(** The [catch] clause, for the message of what was thrown. *)
Definition handleParamsSubmit_rejected (message : string) (st : State) : State :=
  setError (if String.eqb message "" then "Failed to update parameters" else message) st.

(** The inputs of the parameter form, by their [name]. *)
Definition paramInputs : list string :=
  ["vacancyRate"; "managementRate"; "advertisingCostPerVacancy"; "repairs";
   "lenderFee"; "brokerFee"; "mtgAmortizationPeriod"; "firstMtgInterestRate";
   "secondMtgInterestRate"].

(** The inputs of the profile form, by their [name]. *)
Definition profileInputs : list string :=
  ["username"; "currentPassword"; "newPassword"; "confirmPassword"].

End MyPage.

(** * Properties *)

(** Two doubles that compare as different are different. *)
Ltac float_discriminate H x :=
  apply (f_equal (PrimFloat.eqb x)) in H; vm_compute in H; discriminate H.

(** A list has the element it holds at a given position. *)
Ltac in_at l n := apply (nth_error_In l n); reflexivity.

(** ** Numbers and text: the conversions on known values *)

Example Math_round_values :
  JsNum.Math_round 2.5%float = 3%float
  /\ JsNum.Math_round (-2.5)%float = (-2)%float
  /\ JsNum.Math_round 0.49999999999999994%float = 0%float
  /\ JsNum.Math_round 450000.4%float = 450000%float.
Proof. repeat split; vm_compute; reflexivity. Qed.

Example toFixed_values :
  JsNum.toFixed 5.5%float 2 = "5.50"%string
  /\ JsNum.toFixed 1.005%float 2 = "1.00"%string
  /\ JsNum.toFixed 0.125%float 2 = "0.13"%string
  /\ JsNum.toFixed (-0.001)%float 2 = "-0.00"%string
  /\ JsNum.toFixed 1e21%float 2 = "1e+21"%string.
Proof. repeat split; vm_compute; reflexivity. Qed.

Example Number_toString_values :
  JsNum.Number_toString 0.06%float = "0.06"%string
  /\ JsNum.Number_toString (0.1 + 0.2)%float = "0.30000000000000004"%string
  /\ JsNum.Number_toString 123456789012345680000%float = "123456789012345680000"%string
  /\ JsNum.Number_toString 1e21%float = "1e+21"%string
  /\ JsNum.Number_toString 0.000001%float = "0.000001"%string
  /\ JsNum.Number_toString 1e-7%float = "1e-7"%string
  /\ JsNum.Number_toString (-1.5)%float = "-1.5"%string.
Proof. repeat split; vm_compute; reflexivity. Qed.

Example parseFloat_values :
  JsNum.parseFloat "5.50" = 5.5%float
  /\ JsNum.parseFloat "  -3.5e2 m" = (-350)%float
  /\ JsNum.parseFloat ".5" = 0.5%float
  /\ JsNum.parseFloat "0x1F" = 0%float
  /\ JsNum.parseFloat "" = nan
  /\ JsNum.StringToNumber "0x1F" = 31%float
  /\ JsNum.StringToNumber " 12.5 " = 12.5%float
  /\ JsNum.StringToNumber "12px" = nan
  /\ JsNum.StringToNumber "" = 0%float.
Proof. repeat split; vm_compute; reflexivity. Qed.

Example formatCurrency_values :
  formatCurrency 450000%float = "$450,000"%string
  /\ formatCurrency 1234567.5%float = "$1,234,568"%string
  /\ formatCurrency (-1234.4)%float = "-$1,234"%string
  /\ formatCurrency 999%float = "$999"%string
  /\ formatNumber 1000%float = "1,000"%string
  /\ formatPercentage (JNum 0.055%float) = "5.50%"%string.
Proof. repeat split; vm_compute; reflexivity. Qed.

(** ** Strings *)

Lemma eqb_false_of_not_in (s t : string) (l : list string) :
  In t l -> ~ In s l -> String.eqb s t = false.
Proof.
  intros Ht Hs. destruct (String.eqb_spec s t) as [->|]; [contradiction | reflexivity].
Qed.

(** ** Characters *)

Lemma is_lower_not_upper (c : ascii) : Str.is_lower c = true -> Str.is_upper c = false.
Proof. unfold Str.is_lower, Str.is_upper. lia. Qed.

Lemma is_digit_not_upper (c : ascii) : Str.is_digit c = true -> Str.is_upper c = false.
Proof. unfold Str.is_digit, Str.is_upper. lia. Qed.

Lemma lower_char_not_upper (c : ascii) : Str.is_upper c = false -> Str.lower_char c = c.
Proof. unfold Str.lower_char. now intros ->. Qed.

Lemma no_upper_cons (c : ascii) (s : string) :
  no_upper (String c s) = negb (Str.is_upper c) && no_upper s.
Proof. reflexivity. Qed.

Lemma replace_non_alnum_no_upper (s : string) : no_upper (replace_non_alnum s) = true.
Proof.
  induction s as [|c s IH]; [reflexivity|].
  unfold replace_non_alnum in *. cbn [Str.map]. rewrite no_upper_cons, IH, andb_true_r.
  destruct (Str.is_lower c) eqn:Hl; cbn [orb].
  - now rewrite is_lower_not_upper.
  - destruct (Str.is_digit c) eqn:Hd; [now rewrite is_digit_not_upper | reflexivity].
Qed.

Lemma lower_matches_no_upper (s : string) (first prev : bool) :
  no_upper s = true -> lower_matches first prev s = s.
Proof.
  revert first prev. induction s as [|c s IH]; intros first prev H; [reflexivity|].
  rewrite no_upper_cons in H. apply andb_prop in H as [Hc Hs].
  apply negb_true_iff in Hc. cbn [lower_matches].
  rewrite IH by exact Hs. rewrite lower_char_not_upper by exact Hc.
  now destruct (_ || _).
Qed.

Lemma map_length (f : ascii -> ascii) (s : string) :
  String.length (Str.map f s) = String.length s.
Proof. induction s as [|c s IH]; cbn; [reflexivity | now rewrite IH]. Qed.

(** ** Assignments to fresh keys *)

Section Assign.
Context {A : Type}.
Implicit Types (o : Obj A) (k : string).

Lemma has_key_existsb k o :
  has_key k o = existsb (fun k' => String.eqb k' k) (List.map fst o).
Proof. induction o as [|[k' v] o IH]; cbn; [reflexivity | now rewrite IH]. Qed.

Lemma assign_fresh o k (v : A) :
  assignable k = true -> has_key k o = false -> assign o k v = o ++ [(k, v)].
Proof.
  unfold assignable, assign. intros Hk Ho. apply andb_prop in Hk as [Hp Hi].
  apply negb_true_iff in Hp. rewrite Hp, Ho.
  now destruct (array_index k).
Qed.

Lemma distinct_app_singleton (l : list string) k :
  distinct (l ++ [k]) = distinct l && negb (existsb (fun k' => String.eqb k' k) l).
Proof.
  induction l as [|a l IH]; cbn; [reflexivity|].
  rewrite IH, existsb_app. cbn. rewrite orb_false_r, !negb_orb.
  destruct (distinct l), (existsb (String.eqb a) l), (String.eqb a k),
    (existsb (fun k' => String.eqb k' k) l); reflexivity.
Qed.

(** A [reduce] or [forEach] that assigns keys which are all new and
    assignable appends them in order. *)
Lemma fold_assign_fresh {E : Type} (kf : E -> string) (vf : E -> A) (l : list E) o :
  forallb assignable (List.map kf l) = true ->
  distinct (List.map fst o ++ List.map kf l) = true ->
  fold_left (fun acc e => assign acc (kf e) (vf e)) l o
  = o ++ List.map (fun e => (kf e, vf e)) l.
Proof.
  revert o. induction l as [|e l IH]; intros o Ha Hd; cbn.
  - now rewrite app_nil_r.
  - cbn in Ha. apply andb_prop in Ha as [Hk Ha].
    replace (List.map fst o ++ List.map kf (e :: l))
      with ((List.map fst o ++ [kf e]) ++ List.map kf l) in Hd
      by now rewrite <- app_assoc.
    assert (Hfresh : has_key (kf e) o = false).
    { rewrite has_key_existsb.
      assert (Hd' : distinct (List.map fst o ++ [kf e]) = true).
      { clear -Hd. revert Hd. generalize (List.map fst o ++ [kf e]).
        intros l1. induction l1 as [|a l1 IH]; cbn; [reflexivity|].
        rewrite existsb_app, negb_orb. intros H.
        apply andb_prop in H as [H1 H2]. apply andb_prop in H1 as [H1 _].
        now rewrite H1, IH. }
      rewrite distinct_app_singleton in Hd'. apply andb_prop in Hd' as [_ H].
      now apply negb_true_iff in H. }
    rewrite assign_fresh by assumption.
    rewrite IH; [now rewrite <- app_assoc | exact Ha |].
    now rewrite List.map_app.
Qed.
End Assign.

(** ** C1: sourced items without a case *)

(** C1, as the code has it: for every sourced item whose display name is
    not one of the ten names [getValue] has a case for, resolution returns
    the number zero, whatever the snapshot holds (even one without
    [api_data]); no error is raised. *)
Theorem getValue_unrecognised_sourced_is_zero (i : PropertyItem) (p : Property) :
  value_type i = ApiData ->
  ~ In (name i) sourcedNames ->
  getValue i p = JNum 0%float.
Proof.
  intros Hty Hname. unfold getValue, getValue_try. rewrite Hty.
  assert (Hne : forall t, In t sourcedNames -> String.eqb (name i) t = false)
    by (intros t Ht; now apply eqb_false_of_not_in with sourcedNames).
  rewrite !Hne by (cbn; tauto). reflexivity.
Qed.

Lemma getValue_unrecognised_sourced_is_zero_witness :
  getValue Sample.lotSize Sample.broken = JNum 0%float.
Proof.
  apply getValue_unrecognised_sourced_is_zero.
  - reflexivity.
  - cbn. intros H. repeat (destruct H as [H | H]; [discriminate H |]). exact H.
Defined.

(** C1 as stated fails: an undeclared sourced item resolves to zero. *)
Lemma unmapped_sourced_field_counterexample :
  ~ (forall (i : PropertyItem) (p : Property),
        value_type i = ApiData -> ~ In (name i) sourcedNames ->
        getValue i p <> JNum 0%float).
Proof.
  intros H. apply (H Sample.lotSize Sample.house).
  - reflexivity.
  - cbn. intros K. repeat (destruct K as [K | K]; [discriminate K |]). exact K.
  - vm_compute. reflexivity.
Qed.

(** ** C2: the recalculation payload *)

Lemma fold_collect_entry (st : State) (p : Property) (u : gmap string JsVal)
    (l : list (string * string)) (o : Obj JsVal) :
  user_inputs p = Some u ->
  fold_left (collect_entry st p) l (Some o)
  = Some (fold_left
            (fun acc e =>
               assign acc (fst e)
                 (let m := modified st (fst e) in
                  if nullish m then coalesce (get u (snd e)) (JNum 0) else m))
            l o).
Proof.
  intros Hu. revert o. induction l as [|e l IH]; intros o; [reflexivity|].
  cbn [fold_left]. rewrite <- IH. f_equal.
  unfold collect_entry. cbn. rewrite Hu. cbn.
  now destruct (nullish (modified st (fst e))).
Qed.

(** Every entry of [userInputMappings] maps a key to itself. *)
Remark userInputMappings_identity :
  forallb (fun e => String.eqb (fst e) (snd e)) userInputMappings = true.
Proof. vm_compute. reflexivity. Qed.

(** Every user input of the registry has its key among those of
    [userInputMappings]. *)
Lemma userInputKeys_covered :
  forallb (fun k => existsb (String.eqb k) (List.map fst userInputMappings))
    (List.map (fun i => userInputKey (name i)) userInputItems) = true.
Proof. vm_compute. reflexivity. Qed.

(** In the object the values are collected in, each key of
    [userInputMappings] has one entry, whatever the values are. *)
Lemma entries_for_collected (v1 v2 v3 v4 v5 v6 v7 v8 v9 v10 : JsVal)
    (vf : string * string -> JsVal) (k : string) :
  In k (List.map fst userInputMappings) ->
  entries_for k
    ([("address", v1); ("fair_market_value", v2); ("number_of_units", v3);
      ("offer_price", v4); ("transfer_tax", v5); ("first_mtg_interest_rate", v6);
      ("gross_rents", v7); ("property_taxes", v8); ("insurance", v9);
      ("association_fees", v10)]
     ++ List.map (fun e => (fst e, vf e)) userInputMappings)
  = [(k, vf (k, k))].
Proof.
  intros Hk. cbn in Hk.
  repeat (destruct Hk as [<- | Hk]; [reflexivity|]). destruct Hk.
Qed.

Lemma object_prototype_userInputKeys (k : string) :
  In k (List.map fst userInputMappings) -> object_prototype k = JUndefined.
Proof.
  intros Hk. cbn in Hk.
  repeat (destruct Hk as [<- | Hk]; [reflexivity|]). destruct Hk.
Qed.

Lemma collected_value (st : State) (u : gmap string JsVal) (k : string) :
  object_prototype k = JUndefined ->
  (let m := modified st k in
   if nullish m then coalesce (get u k) (JNum 0) else m)
  = payloadValue st u k.
Proof.
  intros Hk. unfold modified, get, payloadValue. rewrite lookup_fmap.
  destruct (modifiedValues st !! k) as [x|]; cbn [fmap option_fmap option_map];
    [reflexivity|].
  rewrite Hk. cbn [nullish]. destruct (u !! k) as [v|]; [|reflexivity].
  unfold coalesce. now destruct (nullish v).
Qed.

(** C2: for every snapshot that has its sourced facts and its user inputs,
    and every set of pending edits, [collectCurrentValues] returns a
    payload which holds exactly one entry for each user input of the
    registry, under its key; the value is the pending edit under that key
    when there is one, else the stored user input when there is one (and
    it is not null), else zero. *)
Theorem collectCurrentValues_user_inputs (st : State) (p : Property)
    (a u : gmap string JsVal) :
  currentProperty st = Some p ->
  api_data p = Some a ->
  user_inputs p = Some u ->
  exists payload : Obj JsVal,
    collectCurrentValues st = Some payload
    /\ forall i : PropertyItem,
         In i allItems -> value_type i = UserInput ->
         entries_for (userInputKey (name i)) payload
         = [(userInputKey (name i), payloadValue st u (userInputKey (name i)))].
Proof.
  intros Hp Ha Hu. unfold collectCurrentValues. rewrite Hp, Ha. cbn [member mbind option_bind].
  rewrite (fold_collect_entry st p u) by exact Hu.
  rewrite fold_assign_fresh by (vm_compute; reflexivity).
  eexists. split; [reflexivity|].
  intros i Hi Hty.
  assert (Hk : In (userInputKey (name i)) (List.map fst userInputMappings)).
  { pose proof userInputKeys_covered as Hcov.
    rewrite forallb_forall in Hcov.
    assert (Hin : In i userInputItems).
    { apply filter_In. split; [exact Hi|]. unfold is_user_input. now rewrite Hty. }
    specialize (Hcov (userInputKey (name i))
                  (in_map (fun i => userInputKey (name i)) _ _ Hin)).
    apply existsb_exists in Hcov as (k & Hk & Heq).
    apply String.eqb_eq in Heq. now subst k. }
  rewrite (entries_for_collected _ _ _ _ _ _ _ _ _ _ _ _ Hk). cbn [fst snd].
  rewrite collected_value by now apply object_prototype_userInputKeys.
  reflexivity.
Qed.

Lemma collectCurrentValues_user_inputs_witness :
  exists payload : Obj JsVal,
    collectCurrentValues Sample.editing = Some payload
    /\ entries_for "vacancy_rate" payload = [("vacancy_rate"%string, JNum 0.06%float)]
    /\ entries_for "repairs" payload = [("repairs"%string, JNum 0%float)].
Proof.
  destruct (collectCurrentValues_user_inputs Sample.editing Sample.house
              Sample.houseApi Sample.houseInputs) as (payload & Hp & H);
    [reflexivity ..|].
  exists payload. split; [exact Hp|]. split.
  - assert (Hin : In Sample.vacancyRate allItems)
      by (in_at allItems 1%nat).
    pose proof (H Sample.vacancyRate Hin eq_refl) as Hv. vm_compute in Hv. exact Hv.
  - assert (Hin : In (item "Repairs" UserInput "Purchase Info" "currency") allItems)
      by (in_at allItems 7%nat).
    pose proof (H _ Hin eq_refl) as Hv. vm_compute in Hv. exact Hv.
Defined.

(** A pending edit is recorded under the lowercased name with its spaces
    replaced, which is the key [collectCurrentValues] reads for 27 of the
    40 user inputs; an edit of one of the 13 others does not reach the
    payload. *)
Remark edit_key_differs :
  List.map name
    (List.filter
       (fun i => negb (String.eqb (editKey (name i)) (userInputKey (name i))))
       userInputItems)
  = ["1st Mtg Amortization Period"; "1st Mtg CMHC Fee"; "2nd Mtg Principle Amount";
     "2nd Mtg Interest Rate"; "2nd Mtg Amortization Period";
     "Interest Only Principle Amount"; "Interest Only Interest Rate";
     "Other Monthly Financing Costs"; "Laundry / Vending";
     "Lawn / Snow Maintenance"; "Water / Sewer"; "Deposit(s) made with Offer";
     "Less Pro-Ration of Rents"]%string.
Proof. vm_compute. reflexivity. Qed.

(** ** C3, C4, C5: the recalculation and the pending edits *)

Lemma modifiedValues_fetchPropertyDetail (st : State) :
  modifiedValues (fst (fetchPropertyDetail st)) = modifiedValues st.
Proof.
  unfold fetchPropertyDetail. destruct (query_id st) as [i|]; [|reflexivity].
  destruct (String.eqb i ""); reflexivity.
Qed.

Lemma modifiedValues_step (st : State) (e : Event) :
  is_input_change e = false ->
  modifiedValues (fst (step st e)) = modifiedValues st.
Proof.
  intros He. destruct e; cbn [step]; try discriminate He; try reflexivity.
  - destruct (same_id new_id (query_id st)); [reflexivity|].
    apply (modifiedValues_fetchPropertyDetail (setQueryId new_id st)).
  - destruct (view st); try reflexivity.
    apply (modifiedValues_fetchPropertyDetail (setError None st)).
  - destruct (showing st && negb (isRecalculating st)); [|reflexivity].
    unfold handleRecalculate. destruct (collectCurrentValues _); reflexivity.
  - destruct (showing st); [|reflexivity].
    unfold handleSaveProperty. destruct token as [t|]; [|reflexivity].
    destruct (String.eqb t ""); reflexivity.
  - destruct (showing st); [|reflexivity].
    unfold handleSaveDefaultInputs. destruct token as [t|]; [|reflexivity].
    destruct (String.eqb t ""); [reflexivity|].
    destruct (propertyDetail st) as [d|]; [|reflexivity].
    destruct (head (properties d)); reflexivity.
Qed.

(** C3, as the code has it: a recalculation that succeeds replaces the
    snapshot by the response and leaves the pending edits as they are; one
    that fails, at the request or already while the values are collected,
    leaves snapshot and pending edits as they were and sets the message
    "Failed to recalculate values". *)
Theorem recalculation_outcome (st : State) :
  (forall data,
      let st' := fst (step st (RecalculateResolved data)) in
      snapshot st' = Some data
      /\ modifiedValues st' = modifiedValues st
      /\ isRecalculating st' = false)
  /\ (let st' := fst (step st RecalculateRejected) in
      snapshot st' = snapshot st
      /\ modifiedValues st' = modifiedValues st
      /\ error st' = Some "Failed to recalculate values"
      /\ isRecalculating st' = false)
  /\ (showing st = true ->
      isRecalculating st = false ->
      collectCurrentValues (setIsRecalculating true st) = None ->
      let st' := fst (step st ClickRecalculate) in
      snapshot st' = snapshot st
      /\ modifiedValues st' = modifiedValues st
      /\ error st' = Some "Failed to recalculate values"
      /\ snd (step st ClickRecalculate) = []).
Proof.
  split; [|split].
  - intros data. cbn zeta. repeat split.
  - cbn zeta. repeat split.
  - intros Hshow Hidle Hthrow. cbn [step]. rewrite Hshow, Hidle.
    unfold handleRecalculate. rewrite Hthrow. cbn zeta. repeat split.
Qed.

Lemma recalculation_outcome_witness :
  snapshot (fst (step Sample.editing
                   (RecalculateResolved (Sample.detail Sample.houseRecalculated))))
  = Some (Sample.detail Sample.houseRecalculated)
  /\ snapshot (fst (step Sample.editing RecalculateRejected))
     = Some (Sample.detail Sample.house)
  /\ error (fst (step Sample.showingBroken ClickRecalculate))
     = Some "Failed to recalculate values"%string.
Proof.
  destruct (recalculation_outcome Sample.editing) as (Hok & Hfail & _).
  destruct (recalculation_outcome Sample.showingBroken) as (_ & _ & Hthrow).
  split; [|split].
  - apply Hok.
  - destruct Hfail as [-> _]. vm_compute. reflexivity.
  - apply Hthrow; vm_compute; reflexivity.
Defined.

(** C3 as stated fails: the edit typed before a recalculation is still
    pending after the response has been installed. *)
Lemma recalculation_keeps_edits_counterexample :
  let st := run Sample.editing
                [ClickRecalculate; RecalculateResolved (Sample.detail Sample.houseRecalculated)] in
  snapshot st = Some (Sample.detail Sample.houseRecalculated)
  /\ modifiedValues st !! "vacancy_rate" = Some 0.06%float
  /\ modifiedValues st <> ∅.
Proof.
  assert (H : modifiedValues
                (run Sample.editing
                   [ClickRecalculate;
                    RecalculateResolved (Sample.detail Sample.houseRecalculated)])
              !! "vacancy_rate" = Some 0.06%float) by (vm_compute; reflexivity).
  cbn zeta. split; [vm_compute; reflexivity|]. split; [exact H|].
  intros Hempty. rewrite Hempty in H. rewrite lookup_empty in H. discriminate H.
Qed.














(** ** C6: key-case round trip *)

Module CaseConvFacts.
Import CaseConv.

Lemma upper_char_is_upper (c : ascii) :
  Str.is_lower c = true -> Str.is_upper (Str.upper_char c) = true.
Proof. destruct c as [[] [] [] [] [] [] [] []]; intros H; try discriminate H; reflexivity. Qed.

Lemma lower_upper_char (c : ascii) :
  Str.is_lower c = true -> Str.lower_char (Str.upper_char c) = c.
Proof. destruct c as [[] [] [] [] [] [] [] []]; intros H; try discriminate H; reflexivity. Qed.

Lemma snakeToCamelKey_step (c d : ascii) (r : string) :
  snakeToCamelKey (String c (String d r))
  = if Ascii.eqb c "_" && Str.is_lower d
    then String (Str.upper_char d) (snakeToCamelKey r)
    else String c (snakeToCamelKey (String d r)).
Proof. reflexivity. Qed.

Lemma camelToSnakeKey_step (c : ascii) (r : string) :
  camelToSnakeKey (String c r)
  = if Str.is_upper c
    then String "_" (String (Str.lower_char c) (camelToSnakeKey r))
    else String c (camelToSnakeKey r).
Proof. reflexivity. Qed.

Lemma key_round_trip_bounded (n : nat) (k : string) :
  (String.length k <= n)%nat -> no_upper k = true ->
  camelToSnakeKey (snakeToCamelKey k) = k.
Proof.
  revert k. induction n as [|n IH]; intros k Hlen Hk.
  - destruct k; [reflexivity | cbn in Hlen; lia].
  - destruct k as [|c r]; [reflexivity|]. cbn [String.length] in Hlen.
    rewrite no_upper_cons in Hk. apply andb_prop in Hk as [Hc Hr].
    apply negb_true_iff in Hc.
    destruct r as [|d r']; [cbn; now rewrite Hc|].
    rewrite snakeToCamelKey_step.
    destruct (Ascii.eqb c "_" && Str.is_lower d) eqn:Hm.
    + apply andb_prop in Hm as [Hu Hd]. apply Ascii.eqb_eq in Hu. subst c.
      rewrite camelToSnakeKey_step.
      rewrite (upper_char_is_upper d Hd), (lower_upper_char d Hd).
      rewrite no_upper_cons in Hr. apply andb_prop in Hr as [_ Hr'].
      rewrite IH; [reflexivity | cbn [String.length] in Hlen; lia | exact Hr'].
    + rewrite camelToSnakeKey_step, Hc.
      f_equal. apply IH; [lia | exact Hr].
Qed.

(** On a key with no capital letter, snake-to-camel then camel-to-snake
    gives the key back. *)
Lemma key_round_trip (k : string) :
  no_upper k = true -> camelToSnakeKey (snakeToCamelKey k) = k.
Proof. apply (key_round_trip_bounded (String.length k)). lia. Qed.

Lemma camelToSnakeKey_no_upper (k : string) :
  no_upper k = true -> camelToSnakeKey k = k.
Proof.
  induction k as [|c k IH]; intros H; [reflexivity|].
  rewrite no_upper_cons in H. apply andb_prop in H as [Hc Hk].
  apply negb_true_iff in Hc. cbn. now rewrite Hc, IH.
Qed.

Lemma digits_no_upper (l : list ascii) :
  forallb Str.is_digit l = true -> forallb (fun c => negb (Str.is_upper c)) l = true.
Proof.
  induction l as [|c l IH]; cbn; [reflexivity|]. intros H.
  apply andb_prop in H as [Hc Hl]. now rewrite (is_digit_not_upper c Hc), IH.
Qed.

Lemma array_index_no_upper (k : string) (n : Z) :
  array_index k = Some n -> no_upper k = true.
Proof.
  unfold array_index, no_upper.
  destruct (forallb Str.is_digit (list_ascii_of_string k)) eqn:Hd; [|discriminate].
  intros _. now apply digits_no_upper.
Qed.

Lemma snakeToCamelKey_assignable (k : string) :
  plain_key k = true -> assignable (snakeToCamelKey k) = true.
Proof.
  unfold plain_key. intros H. apply andb_prop in H as [Hu Ha].
  pose proof (key_round_trip k Hu) as Hrt. unfold assignable in *.
  apply andb_prop in Ha as [Hp Hi]. apply andb_true_intro. split.
  - apply negb_true_iff. destruct (String.eqb_spec (snakeToCamelKey k) "__proto__") as [E|]; [|reflexivity].
    rewrite E in Hrt. cbn in Hrt. subst k. discriminate Hp.
  - destruct (array_index (snakeToCamelKey k)) as [n|] eqn:E; [|reflexivity].
    apply array_index_no_upper in E as Hn.
    rewrite (camelToSnakeKey_no_upper _ Hn) in Hrt. rewrite Hrt in E.
    now rewrite E in Hi.
Qed.

Lemma existsb_map_inj (f : string -> string) (g : string -> string) (k : string)
    (l : list string) :
  g (f k) = k -> Forall (fun a => g (f a) = a) l ->
  existsb (String.eqb (f k)) (List.map f l) = existsb (String.eqb k) l.
Proof.
  intros Hk. induction 1 as [|a l Ha _ IH]; cbn; [reflexivity|].
  rewrite IH. f_equal.
  destruct (String.eqb_spec (f k) (f a)) as [E|E], (String.eqb_spec k a) as [E'|E'];
    try reflexivity.
  - exfalso. apply E'. now rewrite <- Hk, <- Ha, E.
  - exfalso. apply E. now rewrite E'.
Qed.

Lemma distinct_map_inj (f g : string -> string) (l : list string) :
  Forall (fun a => g (f a) = a) l -> distinct (List.map f l) = distinct l.
Proof.
  induction 1 as [|a l Ha Hl IH]; cbn; [reflexivity|].
  now rewrite IH, (existsb_map_inj f g a l Ha Hl).
Qed.

(** Induction over a value, with the hypothesis for every item of an
    array and every field of an object. *)
Lemma Json_induction (P : Json -> Prop) :
  (forall v, P (Scalar v)) ->
  (forall items, Forall P items -> P (Array items)) ->
  (forall fields, Forall (fun kv => P (snd kv)) fields -> P (Object fields)) ->
  forall j, P j.
Proof.
  intros HS HA HO. fix IH 1. intros [v | items | fields].
  - apply HS.
  - apply HA. induction items as [|x items IHl]; constructor; [apply IH | exact IHl].
  - apply HO. induction fields as [|[k x] fields IHl]; constructor; [apply IH | exact IHl].
Qed.

Lemma keys_ok_impl (P Q : string -> bool) (j : Json) :
  (forall k, P k = true -> Q k = true) -> keys_ok P j = true -> keys_ok Q j = true.
Proof.
  intros HPQ. induction j as [v | items IH | fields IH] using Json_induction;
    cbn [keys_ok]; [reflexivity | |]; intros H.
  - rewrite forallb_forall in *. rewrite List.Forall_forall in IH.
    intros x Hx. apply IH; [exact Hx | now apply H].
  - rewrite forallb_forall in *. rewrite List.Forall_forall in IH.
    intros kv Hkv. specialize (H kv Hkv). apply andb_prop in H as [H1 H2].
    rewrite (HPQ _ H1). now apply IH.
Qed.

(** The round trip for keys with no capital letter. *)
Lemma round_trip_plain (j : Json) :
  keys_ok plain_key j = true -> well_formed j = true ->
  convertCamelToSnake (convertSnakeToCamel j) = j.
Proof.
  induction j as [v | items IH | fields IH] using Json_induction; intros Hk Hw.
  - reflexivity.
  - cbn [convertSnakeToCamel convertCamelToSnake]. f_equal. rewrite List.map_map.
    cbn [keys_ok well_formed] in Hk, Hw. rewrite forallb_forall in Hk, Hw.
    rewrite List.Forall_forall in IH.
    rewrite <- (List.map_id items) at 2. apply List.map_ext_in.
    intros x Hx. now apply IH; [| apply Hk | apply Hw].
  - cbn [keys_ok well_formed] in Hk, Hw. apply andb_prop in Hw as [Hd Hw].
    rewrite forallb_forall in Hk, Hw. rewrite List.Forall_forall in IH.
    assert (Hplain : forall kv, In kv fields -> plain_key (fst kv) = true).
    { intros kv Hkv. specialize (Hk kv Hkv). now apply andb_prop in Hk as [? _]. }
    assert (Hrt : Forall (fun a => camelToSnakeKey (snakeToCamelKey a) = a)
                    (List.map fst fields)).
    { apply List.Forall_forall. intros a Ha. apply in_map_iff in Ha as (kv & <- & Hkv).
      apply key_round_trip. specialize (Hplain kv Hkv). unfold plain_key in Hplain.
      now apply andb_prop in Hplain as [? _]. }
    cbn [convertSnakeToCamel].
    rewrite (fold_assign_fresh (fun kv => snakeToCamelKey (fst kv))
               (fun kv => convertSnakeToCamel (snd kv)) fields []).
    2:{ apply forallb_forall. intros a Ha. apply in_map_iff in Ha as (kv & <- & Hkv).
        apply snakeToCamelKey_assignable, Hplain, Hkv. }
    2:{ cbn [List.map app]. rewrite <- (List.map_map fst snakeToCamelKey).
        now rewrite (distinct_map_inj snakeToCamelKey camelToSnakeKey). }
    cbn [app convertCamelToSnake].
    rewrite (fold_assign_fresh (fun kv => camelToSnakeKey (fst kv))
               (fun kv => convertCamelToSnake (snd kv)) _ []).
    2:{ rewrite List.map_map. cbn [fst]. apply forallb_forall. intros a Ha.
        apply in_map_iff in Ha as (kv & <- & Hkv).
        specialize (Hplain kv Hkv). unfold plain_key in Hplain.
        apply andb_prop in Hplain as [Hu Ha]. now rewrite key_round_trip. }
    2:{ cbn [List.map app]. rewrite List.map_map. cbn [fst].
        rewrite <- (List.map_map fst (fun k => camelToSnakeKey (snakeToCamelKey k))).
        rewrite (List.map_ext_in _ (fun k => k)), List.map_id; [exact Hd|].
        intros a Ha. rewrite List.Forall_forall in Hrt. now apply Hrt. }
    cbn [app]. f_equal. rewrite List.map_map. cbn [fst snd].
    rewrite <- (List.map_id fields) at 2. apply List.map_ext_in.
    intros [k x] Hkv. cbn [fst snd]. f_equal.
    + rewrite List.Forall_forall in Hrt. apply Hrt. now apply (in_map fst _ (k, x)).
    + apply (IH (k, x) Hkv).
      * specialize (Hk (k, x) Hkv). now apply andb_prop in Hk as [_ ?].
      * now apply (Hw (k, x)).
Qed.

Lemma canonical_keys_plain : forallb plain_key canonicalKeys = true.
Proof. vm_compute. reflexivity. Qed.

Lemma is_canonical_plain (k : string) : is_canonical k = true -> plain_key k = true.
Proof.
  unfold is_canonical. intros H. apply existsb_exists in H as (k' & Hin & Heq).
  apply String.eqb_eq in Heq. subst k'.
  pose proof canonical_keys_plain as Hall. rewrite forallb_forall in Hall.
  now apply Hall.
Qed.

(** The keys of the calculated data are display names, not snake-style
    keys: the round trip does not give them back. *)
Remark calculated_key_round_trip :
  camelToSnakeKey (snakeToCamelKey "Total Income") = "_total _income"%string.
Proof. reflexivity. Qed.

End CaseConvFacts.

(** C6: for every mapping whose keys, at every depth, are canonical keys of
    the registry (and whose objects hold no key twice), converting the keys
    from snake to camel case and then back from camel to snake case yields
    the mapping itself. *)
Theorem wire_format_round_trip (m : CaseConv.Json) :
  CaseConv.keys_ok is_canonical m = true ->
  CaseConv.well_formed m = true ->
  CaseConv.convertCamelToSnake (CaseConv.convertSnakeToCamel m) = m.
Proof.
  intros Hk Hw. apply CaseConvFacts.round_trip_plain; [|exact Hw].
  apply (CaseConvFacts.keys_ok_impl is_canonical); [|exact Hk].
  apply CaseConvFacts.is_canonical_plain.
Qed.

Lemma wire_format_round_trip_witness :
  CaseConv.convertSnakeToCamel Sample.nested
  = CaseConv.Object
      [("vacancyRate"%string, CaseConv.Scalar (JNum 0.05%float));
       ("firstMtgCmhcFee"%string,
        CaseConv.Array
          [CaseConv.Object [("lessProRationOfRents"%string, CaseConv.Scalar JNull)];
           CaseConv.Scalar (JStr "n/a")]);
       ("address"%string, CaseConv.Scalar (JStr "12 Elm Street"))]
  /\ CaseConv.convertCamelToSnake (CaseConv.convertSnakeToCamel Sample.nested)
     = Sample.nested.
Proof.
  split; [vm_compute; reflexivity|].
  apply wire_format_round_trip; vm_compute; reflexivity.
Defined.

(** ** C7: percentages in the edit fields *)

Lemma displayValue_scaled (n : string) (v : JsVal) :
  percentScaled n = true -> displayValue n v = displayValue "Vacancy Rate" v.
Proof. unfold displayValue. now intros ->. Qed.

Lemma storedValue_scaled (n text : string) :
  percentScaled n = true -> storedValue n text = storedValue "Vacancy Rate" text.
Proof. unfold storedValue, newValue. now intros ->. Qed.

Lemma percent_round_trip_scaled (n : string) (k : Z) :
  percentScaled n = true -> percent_round_trip n k = percent_round_trip "Vacancy Rate" k.
Proof.
  intros H. unfold percent_round_trip.
  rewrite !(storedValue_scaled n) by exact H. rewrite (displayValue_scaled n) by exact H.
  destruct (displayValue "Vacancy Rate" _); [|reflexivity].
  now rewrite (storedValue_scaled n) by exact H.
Qed.

Lemma percent_round_trip_samples :
  forallb (percent_round_trip "Vacancy Rate") percentSamples = true.
Proof. vm_compute. reflexivity. Qed.

Lemma editable_percentages_scaled :
  forallb (fun i => percentScaled (name i)) editablePercentItems = true.
Proof. vm_compute. reflexivity. Qed.

Lemma format_is_percentage_not_currency (i : PropertyItem) :
  format_is "percentage" i = true -> format_is "currency" i = false.
Proof.
  unfold format_is. destruct (format i) as [g|]; [|discriminate].
  intros H. apply String.eqb_eq in H as ->. reflexivity.
Qed.

(** C7, as the code has it: every percentage field of the registry that
    can be edited is stored as a fraction and shown in its input as the
    percent, rounded to two fractional digits: the raw value 0.055 is shown
    as 5.5, and typing 6 stores 0.06 under the key the input reads.
    Storing and showing are inverse of each other on the percents with at
    most two fractional digits (from 0.00 to 10.00 in steps of 0.01 and the
    whole percents up to 100); a percent typed with more digits is shown
    rounded, 5.555 as 5.55. *)
Theorem percentage_edit_conversion :
  (forall i : PropertyItem,
      In i allItems -> is_api_data i || is_user_input i = true ->
      format_is "percentage" i = true ->
      percentScaled (name i) = true)
  /\ (forall n : string,
      percentScaled n = true ->
      displayValue n (JNum 0.055%float) = Some 5.5%float
      /\ storedValue n "6" = 0.06%float
      /\ (forall k : Z, In k percentSamples -> percent_round_trip n k = true)
      /\ displayValue n (JNum (storedValue n "5.555")) = Some 5.55%float)
  /\ (forall (i : PropertyItem) (text : string) (st : State),
      format_is "percentage" i = true ->
      modifiedValues (onChange i text st)
      = <[editKey (name i) := storedValue (name i) text]> (modifiedValues st)
      /\ modified (onChange i text st) (editKey (name i))
         = JNum (storedValue (name i) text))
  /\ (forall (i : PropertyItem) (st : State) (p : Property),
      is_api_data i || is_user_input i = true ->
      format_is "percentage" i = true ->
      name i <> "Address"%string ->
      renderValue st i p
      = option_map PercentInput
          (displayValue (name i) (inputValue st i (getValue i p)))).
Proof.
  split; [|split; [|split]].
  - intros i Hi He Hf.
    pose proof editable_percentages_scaled as H. rewrite forallb_forall in H.
    apply H. apply filter_In. split; [exact Hi|]. now rewrite He, Hf.
  - intros n Hn. split; [|split; [|split]].
    + rewrite (displayValue_scaled n) by exact Hn. vm_compute. reflexivity.
    + rewrite (storedValue_scaled n) by exact Hn. vm_compute. reflexivity.
    + intros k Hk. rewrite (percent_round_trip_scaled n) by exact Hn.
      pose proof percent_round_trip_samples as H. rewrite forallb_forall in H.
      now apply H.
    + rewrite (displayValue_scaled n), (storedValue_scaled n) by exact Hn.
      vm_compute. reflexivity.
  - intros i text st Hf.
    assert (H : modifiedValues (onChange i text st)
                = <[editKey (name i) := storedValue (name i) text]> (modifiedValues st)).
    { unfold onChange. rewrite (format_is_percentage_not_currency i Hf), Hf. reflexivity. }
    split; [exact H|]. unfold modified, get. rewrite H, lookup_fmap, lookup_insert_eq.
    reflexivity.
  - intros i st p He Hf Hname. unfold renderValue.
    destruct (String.eqb_spec (name i) "Address"); [contradiction|].
    rewrite He, (format_is_percentage_not_currency i Hf), Hf.
    now destruct (displayValue _ _).
Qed.

Lemma percentage_edit_conversion_witness :
  percentScaled (name Sample.vacancyRate) = true
  /\ displayValue "Vacancy Rate" (JNum 0.055%float) = Some 5.5%float
  /\ modified (onChange Sample.vacancyRate "6" (initialState None)) "vacancy_rate"
     = JNum 0.06%float
  /\ percent_round_trip "Vacancy Rate" 550 = true.
Proof.
  destruct percentage_edit_conversion as (H1 & H2 & H3 & _).
  assert (Hs : percentScaled (name Sample.vacancyRate) = true).
  { apply H1; [in_at allItems 1%nat | reflexivity ..]. }
  destruct (H2 "Vacancy Rate"%string Hs) as (Hd & Hv & Hrt & _).
  split; [exact Hs|]. split; [exact Hd|]. split.
  - destruct (H3 Sample.vacancyRate "6"%string (initialState None)) as [_ H];
      [reflexivity|].
    change (editKey (name Sample.vacancyRate)) with (editKey "Vacancy Rate") in H.
    replace (editKey "Vacancy Rate") with "vacancy_rate"%string in H
      by (vm_compute; reflexivity).
    rewrite H. apply (f_equal JNum). exact Hv.
  - apply Hrt. in_at percentSamples 550%nat.
Defined.

(** C7 as stated fails: a percent with a third fractional digit is not
    shown as typed, and a fraction shown rounded is not stored again when
    what is shown is typed back. *)
Lemma percentage_inverse_counterexample :
  JsNum.parseFloat "5.555" = 5.555%float
  /\ displayValue "Vacancy Rate" (JNum (storedValue "Vacancy Rate" "5.555"))
     = Some 5.55%float
  /\ 5.55%float <> 5.555%float
  /\ displayValue "Vacancy Rate" (JNum 0.05555%float) = Some 5.56%float
  /\ storedValue "Vacancy Rate" "5.56" = 0.0556%float
  /\ 0.0556%float <> 0.05555%float.
Proof.
  repeat split; try (vm_compute; reflexivity); intros H.
  - float_discriminate H 5.55%float.
  - float_discriminate H 0.0556%float.
Qed.

(** ** C8: the key of a user input *)

Lemma derivedKey_by_character (n : string) :
  derivedKey n = replace_non_alnum (Str.toLowerCase n).
Proof. apply lower_matches_no_upper, replace_non_alnum_no_upper. Qed.

Lemma table_lookup_truthy (l : list (string * string)) (k : string) (v : JsVal) :
  Forall (fun kv => snd kv <> ""%string) l ->
  table l !! k = Some v -> or v (JStr k) = v.
Proof.
  intros Hl H. unfold table in H. apply elem_of_list_to_map_2 in H.
  apply list_elem_of_In, in_rev, in_map_iff in H as [[k' s] [Heq Hin]].
  rewrite Forall_forall in Hl. apply list_elem_of_In in Hin.
  specialize (Hl _ Hin). cbn in *.
  injection Heq as _ <-. unfold or. cbn.
  destruct (String.eqb_spec s ""); [contradiction | reflexivity].
Qed.

Lemma object_prototype_no_upper (k : string) :
  no_upper k = true -> ~ In k inheritedKeys -> object_prototype k = JUndefined.
Proof.
  intros Hk Hin. unfold object_prototype.
  destruct (String.eqb_spec k "constructor") as [->|_]; [cbn in Hin; tauto|].
  destruct (String.eqb_spec k "__proto__") as [->|_]; [cbn in Hin; tauto|].
  cbn [existsb].
  repeat match goal with
         | |- context [String.eqb k ?t] =>
             destruct (String.eqb_spec k t) as [->|_];
             [vm_compute in Hk; discriminate Hk|]
         end.
  reflexivity.
Qed.

(** C8, as the code has it: the key of a user input is derived from the
    display name by lowercasing it and replacing every character that is
    not alphanumeric by an underscore, one for one, with no run collapsed
    and nothing trimmed; the override table is then consulted with that
    key and the key is used unchanged when the table has no entry for it
    (the derived keys [constructor] and [__proto__] apart, which every
    object inherits).  Calculated items are read under their display name,
    after their own override table. *)
Theorem userInputKey_by_character (n : string) :
  derivedKey n = replace_non_alnum (Str.toLowerCase n)
  /\ String.length (derivedKey n) = String.length n
  /\ (~ In (derivedKey n) inheritedKeys -> userInputKey n = normalize_by_character n)
  /\ (object_prototype n = JUndefined ->
      calculatedKey n = match calculatedKeyMappings !! n with
                        | Some v => ToString v
                        | None => n
                        end).
Proof.
  pose proof (derivedKey_by_character n) as Hd.
  split; [exact Hd|]. split.
  { rewrite Hd. unfold replace_non_alnum, Str.toLowerCase. now rewrite !map_length. }
  split.
  - intros Hin. unfold userInputKey, normalize_by_character, override, get.
    rewrite <- Hd. destruct (keyMappings !! derivedKey n) as [v|] eqn:Hv.
    + unfold keyMappings in Hv. apply table_lookup_truthy in Hv as ->; [reflexivity|].
      repeat constructor; discriminate.
    + rewrite object_prototype_no_upper; [reflexivity | | exact Hin].
      rewrite Hd. apply replace_non_alnum_no_upper.
  - intros Hn. unfold calculatedKey, get.
    destruct (calculatedKeyMappings !! n) as [v|] eqn:Hv.
    + unfold calculatedKeyMappings in Hv.
      apply table_lookup_truthy in Hv as ->; [reflexivity|].
      repeat constructor; discriminate.
    + rewrite Hn. reflexivity.
Qed.

Lemma userInputKey_by_character_witness :
  userInputKey "Deposit(s) made with Offer" = "deposit_with_offer"%string.
Proof.
  pose proof (userInputKey_by_character "Deposit(s) made with Offer") as (_ & _ & H & _).
  rewrite H; [vm_compute; reflexivity|].
  vm_compute. intros [K | [K | K]]; [discriminate K | discriminate K | exact K].
Defined.

(** C8 as stated fails: collapsing the runs and trimming gives a key the
    override table does not hold, where the code reaches the override. *)
Lemma normalize_counterexample :
  normalize_spec "Deposit(s) made with Offer" = "deposit_s_made_with_offer"%string
  /\ userInputKey "Deposit(s) made with Offer" = "deposit_with_offer"%string
  /\ derivedKey "Deposit(s) made with Offer" = "deposit_s__made_with_offer"%string
  /\ normalize_spec "Deposit(s) made with Offer"
     <> userInputKey "Deposit(s) made with Offer".
Proof. repeat split; try (vm_compute; reflexivity). vm_compute. discriminate. Qed.

(** ** C9: currency formatting *)













(** ** C10: missing values *)




(** * Further properties of the property page *)

(** ** Rendering *)

Lemma modified_setModifiedValues_insert (st : State) (k k' : string) (x : float) :
  modified (setModifiedValues (fun prev => <[k := x]> prev) st) k'
  = if String.eqb k k' then JNum x else modified st k'.
Proof.
  unfold modified, get. cbn [modifiedValues setModifiedValues]. rewrite lookup_fmap.
  destruct (String.eqb_spec k k') as [->|Hne].
  - now rewrite lookup_insert_eq.
  - rewrite lookup_insert_ne by exact Hne. now rewrite <- lookup_fmap.
Qed.

(** What an input change stores, whatever the format of the item. *)
Lemma onChange_stores (i : PropertyItem) (text : string) (st : State) :
  exists x : float,
    onChange i text st
    = setModifiedValues (fun prev => <[editKey (name i) := x]> prev) st
    /\ (format_is "percentage" i = false -> x = parseFloat_or_0 text)
    /\ x = parseFloat_or_0
             (if format_is "currency" i then text
              else if format_is "percentage" i
                   then JsNum.Number_toString (newValue (name i) text)
                   else text).
Proof.
  unfold onChange, handleValueChange.
  destruct (format_is "currency" i); [eexists; repeat split|].
  destruct (format_is "percentage" i); eexists; repeat split. discriminate.
Qed.

Lemma renderValue_modified (st st' : State) (i : PropertyItem) (p : Property) :
  modified st' (editKey (name i)) = modified st (editKey (name i)) ->
  renderValue st' i p = renderValue st i p.
Proof. intros H. unfold renderValue, inputValue. now rewrite H. Qed.

(** X1: rendering an item of the registry never throws, whatever the
    snapshot and the pending edits hold: the call of [toFixed] on a value
    that is not a number is out of reach, every percentage with an input
    being one of the seven scaled names. *)
Theorem renderValue_registry_total (st : State) (i : PropertyItem) (p : Property) :
  In i allItems -> exists r : Rendered, renderValue st i p = Some r.
Proof.
  intros Hi. unfold renderValue.
  destruct (String.eqb (name i) "Address"); [eexists; reflexivity|].
  destruct (is_api_data i || is_user_input i) eqn:He; [|eexists; reflexivity].
  destruct (format_is "currency" i); [eexists; reflexivity|].
  destruct (format_is "percentage" i) eqn:Hf; [|eexists; reflexivity].
  pose proof editable_percentages_scaled as H. rewrite forallb_forall in H.
  assert (Hs : percentScaled (name i) = true).
  { apply H. apply filter_In. split; [exact Hi|]. now rewrite He, Hf. }
  unfold displayValue. rewrite Hs. eexists. reflexivity.
Qed.

Lemma renderValue_registry_total_witness :
  exists r : Rendered,
    renderValue Sample.editing Sample.vacancyRate Sample.broken = Some r.
Proof. apply renderValue_registry_total. in_at allItems 1%nat. Defined.

(** X2: what is typed in a currency or a number input is what the input
    shows next, whatever the snapshot holds: the number read by
    [parseFloat], and zero for a text that is no number. *)
Theorem typed_value_is_shown (st : State) (i : PropertyItem) (text : string)
    (p : Property) :
  editable i = true ->
  format_is "percentage" i = false ->
  renderValue (onChange i text st) i p
  = Some ((if format_is "currency" i then CurrencyInput else NumberInput)
            (JNum (parseFloat_or_0 text)))
  /\ (is_nan (JsNum.parseFloat text) = true ->
      renderValue (onChange i text st) i p
      = Some ((if format_is "currency" i then CurrencyInput else NumberInput)
                (JNum 0%float))).
Proof.
  intros He Hf. unfold editable in He. apply andb_prop in He as [Hn He].
  apply negb_true_iff in Hn.
  assert (H : renderValue (onChange i text st) i p
              = Some ((if format_is "currency" i then CurrencyInput else NumberInput)
                        (JNum (parseFloat_or_0 text)))).
  { destruct (onChange_stores i text st) as (x & -> & Hx & _).
    rewrite (Hx Hf). unfold renderValue, inputValue.
    rewrite modified_setModifiedValues_insert, String.eqb_refl, Hn, He, Hf.
    now destruct (format_is "currency" i). }
  split; [exact H|]. intros Hnan. rewrite H.
  unfold parseFloat_or_0, truthy. now rewrite Hnan, orb_true_r.
Qed.

Lemma typed_value_is_shown_witness :
  renderValue (onChange Sample.fairMarketValue "500000" Sample.editing)
    Sample.fairMarketValue Sample.house
  = Some (CurrencyInput (JNum 500000%float))
  /\ renderValue (onChange Sample.fairMarketValue "" Sample.editing)
       Sample.fairMarketValue Sample.house
     = Some (CurrencyInput (JNum 0%float)).
Proof.
  split.
  - destruct (typed_value_is_shown Sample.editing Sample.fairMarketValue "500000"
                Sample.house) as [-> _]; vm_compute; reflexivity.
  - destruct (typed_value_is_shown Sample.editing Sample.fairMarketValue ""
                Sample.house) as [_ ->]; vm_compute; reflexivity.
Defined.

Lemma registry_edit_keys_by_name :
  let keys := List.map (fun i => (name i, editKey (name i))) allItems in
  forallb
    (fun a =>
       forallb
         (fun b => String.eqb (fst a) (fst b) || negb (String.eqb (snd a) (snd b)))
         keys)
    keys = true.
Proof. vm_compute. reflexivity. Qed.

Lemma registry_edit_keys_differ (i j : PropertyItem) :
  In i allItems -> In j allItems -> name i <> name j ->
  String.eqb (editKey (name i)) (editKey (name j)) = false.
Proof.
  intros Hi Hj Hne. pose proof registry_edit_keys_by_name as H. cbv zeta in H.
  rewrite forallb_forall in H.
  specialize (H _ (in_map (fun i => (name i, editKey (name i))) _ _ Hi)).
  rewrite forallb_forall in H.
  specialize (H _ (in_map (fun i => (name i, editKey (name i))) _ _ Hj)).
  cbn [fst snd] in H.
  destruct (String.eqb_spec (name i) (name j)); [contradiction|].
  now apply negb_true_iff in H.
Qed.

(** X3: an edit of one item of the registry changes the cell of no item of
    another name, whatever the snapshot: the edit keys of two names of the
    registry differ. *)
Theorem edit_leaves_other_items (st : State) (i j : PropertyItem) (text : string)
    (p : Property) :
  In i allItems -> In j allItems -> name i <> name j ->
  renderValue (onChange i text st) j p = renderValue st j p.
Proof.
  intros Hi Hj Hne. apply renderValue_modified.
  destruct (onChange_stores i text st) as (x & -> & _).
  rewrite modified_setModifiedValues_insert.
  now rewrite (registry_edit_keys_differ i j Hi Hj Hne).
Qed.

Lemma edit_leaves_other_items_witness :
  renderValue (onChange Sample.vacancyRate "6" Sample.editing)
    Sample.fairMarketValue Sample.house
  = renderValue Sample.editing Sample.fairMarketValue Sample.house.
Proof.
  apply edit_leaves_other_items;
    [in_at allItems 1%nat | in_at allItems 0%nat | discriminate].
Defined.

(** ** The pending edits of a reachable state *)

Lemma parseFloat_or_0_not_nan (text : string) : is_nan (parseFloat_or_0 text) = false.
Proof.
  unfold parseFloat_or_0, truthy.
  destruct (is_zero (JsNum.parseFloat text) || is_nan (JsNum.parseFloat text)) eqn:E;
    cbn [negb]; [reflexivity|].
  now apply orb_false_elim in E as [_ ?].
Qed.

Lemma edits_ok_insert (m : gmap string float) (k : string) (x : float) :
  edits_ok m -> is_nan x = false -> In k inputEditKeys -> edits_ok (<[k := x]> m).
Proof.
  intros Hm Hx Hk k' x' H. destruct (String.eqb_spec k k') as [<-|Hne].
  - rewrite lookup_insert_eq in H. injection H as <-. now split.
  - rewrite lookup_insert_ne in H by exact Hne. now apply Hm.
Qed.

Lemma item_eqb_name (i j : PropertyItem) :
  item_eqb i j = true -> name i = name j /\ value_type i = value_type j.
Proof.
  unfold item_eqb. intros H.
  apply andb_prop in H as [H _]. apply andb_prop in H as [H _].
  apply andb_prop in H as [Hn Hv]. apply String.eqb_eq in Hn.
  split; [exact Hn|]. now destruct (value_type i), (value_type j).
Qed.

Lemma has_input_edit_key (i : PropertyItem) :
  has_input i = true -> In (editKey (name i)) inputEditKeys.
Proof.
  unfold has_input. intros H. apply andb_prop in H as [H He].
  apply andb_prop in H as [Hin Hn].
  apply existsb_exists in Hin as (j & Hj & Heq).
  apply item_eqb_name in Heq as [Hname Hty].
  unfold inputEditKeys. rewrite Hname.
  apply (in_map (fun i => editKey (name i))). apply filter_In. split; [exact Hj|].
  unfold editable, is_api_data, is_user_input in *. now rewrite <- Hname, <- Hty, Hn, He.
Qed.

Lemma edits_ok_step (st : State) (e : Event) :
  edits_ok (modifiedValues st) -> edits_ok (modifiedValues (fst (step st e))).
Proof.
  intros H. destruct (is_input_change e) eqn:He.
  - destruct e; try discriminate He. cbn [step].
    destruct (showing st); [|exact H]. cbn [andb].
    destruct (has_input i) eqn:Hi; [|exact H]. cbn [fst].
    destruct (onChange_stores i text st) as (x & -> & _ & ->).
    cbn [modifiedValues setModifiedValues].
    apply edits_ok_insert; [exact H | apply parseFloat_or_0_not_nan |].
    now apply has_input_edit_key.
  - now rewrite modifiedValues_step.
Qed.

(** X4: in every state the page reaches from its first render, each pending
    edit is a number other than NaN, recorded under the edit key of an item
    of the registry that has an input. *)
Theorem reachable_edits_ok (i : option string) (es : list Event) :
  edits_ok (modifiedValues (run (fst (mount i)) es)).
Proof.
  assert (H0 : edits_ok (modifiedValues (fst (mount i)))).
  { unfold mount. rewrite modifiedValues_fetchPropertyDetail.
    intros k x H. cbn in H. rewrite lookup_empty in H. discriminate H. }
  revert H0. generalize (fst (mount i)). induction es as [|e es IH]; intros st H.
  - exact H.
  - change (run st (e :: es)) with (run (fst (step st e)) es).
    apply IH. now apply edits_ok_step.
Qed.

(** ** The values collected for a recalculation *)

Lemma collectCurrentValues_shape (st : State) (p : Property) (a u : gmap string JsVal) :
  currentProperty st = Some p ->
  api_data p = Some a ->
  user_inputs p = Some u ->
  collectCurrentValues st
  = Some (sourcedEntries a
          ++ List.map (fun e => (fst e, payloadValue st u (fst e))) userInputMappings).
Proof.
  intros Hp Ha Hu. unfold collectCurrentValues. rewrite Hp, Ha.
  cbn [member mbind option_bind].
  rewrite (fold_collect_entry st p u) by exact Hu.
  rewrite fold_assign_fresh by (vm_compute; reflexivity).
  unfold sourcedEntries. do 2 f_equal.
  apply List.map_ext_in. intros [k k'] He. cbn [fst snd]. f_equal.
  assert (Hk : k' = k).
  { pose proof userInputMappings_identity as H. rewrite forallb_forall in H.
    specialize (H _ He). cbn in H. now apply String.eqb_eq in H. }
  subst k'. apply collected_value, object_prototype_userInputKeys.
  now apply (in_map fst _ (k, k)).
Qed.

(** X5: for a snapshot that has its sourced facts and its user inputs, the
    values collected are the ten sourced facts as the snapshot holds them
    (the address replaced by the empty text when it is missing), followed
    by the forty user inputs in the order of [userInputMappings]: fifty
    entries under fifty different keys, whatever the pending edits are. *)
Theorem collectCurrentValues_entries (st : State) (p : Property)
    (a u : gmap string JsVal) :
  currentProperty st = Some p ->
  api_data p = Some a ->
  user_inputs p = Some u ->
  exists payload : Obj JsVal,
    collectCurrentValues st = Some payload
    /\ payload
       = sourcedEntries a
         ++ List.map (fun e => (fst e, payloadValue st u (fst e))) userInputMappings
    /\ List.map fst payload = apiDataKeys ++ List.map fst userInputMappings
    /\ length payload = 50%nat
    /\ distinct (List.map fst payload) = true.
Proof.
  intros Hp Ha Hu. eexists. split; [now apply (collectCurrentValues_shape st p a u)|].
  split; [reflexivity|].
  assert (Hkeys : List.map fst
                    (sourcedEntries a
                     ++ List.map (fun e => (fst e, payloadValue st u (fst e)))
                          userInputMappings)
                  = apiDataKeys ++ List.map fst userInputMappings).
  { rewrite List.map_app, List.map_map. reflexivity. }
  split; [exact Hkeys|]. split.
  - rewrite <- (List.length_map fst), Hkeys. reflexivity.
  - rewrite Hkeys. vm_compute. reflexivity.
Qed.

Lemma collectCurrentValues_entries_witness :
  exists payload : Obj JsVal,
    collectCurrentValues Sample.editing = Some payload
    /\ length payload = 50%nat
    /\ nth_error payload 0 = Some ("address"%string, JStr "12 Elm Street")
    /\ nth_error payload 10 = Some ("vacancy_rate"%string, JNum 0.06%float).
Proof.
  destruct (collectCurrentValues_entries Sample.editing Sample.house
              Sample.houseApi Sample.houseInputs)
    as (payload & Hp & Heq & _ & Hlen & _); [reflexivity ..|].
  exists payload. split; [exact Hp|]. split; [exact Hlen|].
  rewrite Heq. split; vm_compute; reflexivity.
Defined.

Lemma fold_left_ext_in {A B : Type} (f g : A -> B -> A) (l : list B) (a : A) :
  (forall acc e, In e l -> f acc e = g acc e) ->
  fold_left f l a = fold_left g l a.
Proof.
  revert a. induction l as [|e l IH]; intros a H; [reflexivity|].
  cbn [fold_left]. rewrite (H a e) by now left.
  apply IH. intros acc e' He'. apply H. now right.
Qed.

(** The values collected depend on the pending edits through the forty
    keys of [userInputMappings] only. *)
Lemma collectCurrentValues_ext (st st' : State) :
  currentProperty st' = currentProperty st ->
  (forall k, In k (List.map fst userInputMappings) -> modified st' k = modified st k) ->
  collectCurrentValues st' = collectCurrentValues st.
Proof.
  intros Hp Hm. unfold collectCurrentValues. rewrite Hp.
  destruct (currentProperty st) as [p|]; [|reflexivity].
  destruct (member (api_data p) "address"); [|reflexivity]. cbn [mbind option_bind].
  repeat (match goal with
          | |- context [member (api_data p) ?k] =>
              destruct (member (api_data p) k); [|reflexivity]
          end; cbn [mbind option_bind]).
  apply fold_left_ext_in. intros acc e He. unfold collect_entry.
  rewrite (Hm (fst e)) by now apply in_map. reflexivity.
Qed.

Lemma currentProperty_setModifiedValues (f : gmap string float -> gmap string float)
    (st : State) :
  currentProperty (setModifiedValues f st) = currentProperty st.
Proof. reflexivity. Qed.

(** X6: an edit recorded under a key that is none of the forty keys of
    [userInputMappings] changes nothing in the values collected for a
    recalculation.  In the registry this is so for the nine sourced facts
    that have an input and for thirteen of the user inputs: what is typed
    for them is shown but not sent. *)
Theorem edits_not_sent :
  (forall (st : State) (i : PropertyItem) (text : string),
      sentWhenEdited i = false ->
      collectCurrentValues (onChange i text st) = collectCurrentValues st)
  /\ List.map name editsNotSent
     = ["Fair Market Value"; "Number of Units"; "Offer Price"; "Transfer Tax";
        "1st Mtg Interest Rate"; "1st Mtg Amortization Period"; "1st Mtg CMHC Fee";
        "2nd Mtg Principle Amount"; "2nd Mtg Interest Rate";
        "2nd Mtg Amortization Period"; "Interest Only Principle Amount";
        "Interest Only Interest Rate"; "Other Monthly Financing Costs";
        "Gross Rents"; "Laundry / Vending"; "Property Taxes"; "Insurance";
        "Lawn / Snow Maintenance"; "Water / Sewer"; "Association Fees";
        "Deposit(s) made with Offer"; "Less Pro-Ration of Rents"]%string.
Proof.
  split; [|vm_compute; reflexivity].
  intros st i text Hs. destruct (onChange_stores i text st) as (x & -> & _).
  apply collectCurrentValues_ext; [reflexivity|].
  intros k Hk. rewrite modified_setModifiedValues_insert.
  destruct (String.eqb_spec (editKey (name i)) k) as [<-|]; [|reflexivity].
  unfold sentWhenEdited in Hs.
  assert (Ht : existsb (String.eqb (editKey (name i)))
                 (List.map fst userInputMappings) = true).
  { apply existsb_exists. exists (editKey (name i)). split; [exact Hk|].
    apply String.eqb_refl. }
  rewrite Ht in Hs. discriminate Hs.
Qed.

Lemma edits_not_sent_witness :
  renderValue (onChange Sample.fairMarketValue "500000" Sample.editing)
    Sample.fairMarketValue Sample.house
  = Some (CurrencyInput (JNum 500000%float))
  /\ collectCurrentValues (onChange Sample.fairMarketValue "500000" Sample.editing)
     = collectCurrentValues Sample.editing.
Proof.
  split; [vm_compute; reflexivity|].
  destruct edits_not_sent as [H _]. apply H. vm_compute. reflexivity.
Defined.

(** X7: when the edit key of an item is one of the forty keys of
    [userInputMappings], what is typed in its input is the value collected
    under that key, whatever the snapshot stores there. *)
Theorem typed_value_is_sent (st : State) (i : PropertyItem) (text : string)
    (p : Property) (a u : gmap string JsVal) :
  sentWhenEdited i = true ->
  currentProperty st = Some p ->
  api_data p = Some a ->
  user_inputs p = Some u ->
  exists (payload : Obj JsVal) (x : float),
    collectCurrentValues (onChange i text st) = Some payload
    /\ modifiedValues (onChange i text st) !! editKey (name i) = Some x
    /\ (format_is "percentage" i = false -> x = parseFloat_or_0 text)
    /\ entries_for (editKey (name i)) payload = [(editKey (name i), JNum x)].
Proof.
  intros Hs Hp Ha Hu.
  destruct (onChange_stores i text st) as (x & Heq & Hx & _).
  assert (Hk : In (editKey (name i)) (List.map fst userInputMappings)).
  { unfold sentWhenEdited in Hs. apply existsb_exists in Hs as (k & Hk & E).
    apply String.eqb_eq in E. now subst k. }
  eexists. exists x. split.
  { apply (collectCurrentValues_shape _ p a u); [|exact Ha | exact Hu].
    rewrite Heq. exact Hp. }
  assert (Hl : modifiedValues (onChange i text st) !! editKey (name i) = Some x).
  { rewrite Heq. cbn [modifiedValues setModifiedValues]. apply lookup_insert_eq. }
  split; [exact Hl|]. split; [exact Hx|].
  unfold sourcedEntries.
  rewrite (entries_for_collected _ _ _ _ _ _ _ _ _ _
             (fun e => payloadValue (onChange i text st) u (fst e)) _ Hk).
  cbn [fst]. unfold payloadValue. now rewrite Hl.
Qed.

Lemma typed_value_is_sent_witness :
  exists payload : Obj JsVal,
    collectCurrentValues
      (onChange (item "Parking" UserInput "Income (Annual)" "currency") "1200"
         Sample.editing) = Some payload
    /\ entries_for "parking" payload = [("parking"%string, JNum 1200%float)].
Proof.
  destruct (typed_value_is_sent Sample.editing
              (item "Parking" UserInput "Income (Annual)" "currency") "1200"
              Sample.house Sample.houseApi Sample.houseInputs)
    as (payload & x & Hp & _ & Hx & He); [vm_compute; reflexivity | reflexivity ..|].
  exists payload. split; [exact Hp|].
  rewrite (Hx eq_refl) in He. vm_compute in He. exact He.
Defined.

(** ** Resolution and formatting *)

(** X8: the lookup of [getValue] throws, and the text "Error loading data"
    is returned in place of a value, exactly when the dictionary the item
    reads is missing from the snapshot: [api_data] for a sourced item with
    one of the ten names that have a case, [user_inputs] for a user input,
    [calculated_data] for a calculated item. *)
Theorem getValue_error (i : PropertyItem) (p : Property) :
  (getValue_try i p = None
   <-> match value_type i with
       | ApiData => In (name i) sourcedNames /\ api_data p = None
       | UserInput => user_inputs p = None
       | Calculated => calculated_data p = None
       end)
  /\ (getValue_try i p = None -> getValue i p = JStr "Error loading data").
Proof.
  split; [|intros H; unfold getValue; now rewrite H].
  unfold getValue_try. destruct (value_type i).
  - destruct (api_data p) as [a|]; cbn [member mbind option_bind].
    + split; [|intros [_ H]; discriminate H].
      repeat match goal with
             | |- context [String.eqb (name i) ?t] => destruct (String.eqb (name i) t)
             end; discriminate.
    + split.
      * unfold sourcedNames. cbn [In].
        repeat match goal with
               | |- context [String.eqb (name i) ?t] =>
                   destruct (String.eqb_spec (name i) t) as [E|];
                     [intros _; split; [rewrite E; tauto | reflexivity]|]
               end.
        discriminate.
      * intros [H _]. unfold sourcedNames in H. cbn [In] in H.
        repeat (destruct H as [H|H]; [rewrite <- H; reflexivity|]). contradiction.
  - destruct (user_inputs p); cbn; split; congruence.
  - destruct (calculated_data p); cbn; split; congruence.
Qed.

Lemma getValue_try_error (i : PropertyItem) (p : Property) :
  getValue_try i p = None -> getValue i p = JStr "Error loading data".
Proof. intros H. unfold getValue. now rewrite H. Qed.

Lemma getValue_error_witness :
  getValue Sample.vacancyRate Sample.broken = JStr "Error loading data".
Proof.
  destruct (getValue_error Sample.vacancyRate Sample.broken) as [[_ H] Herr].
  apply Herr, H. reflexivity.
Defined.

Lemma nullish_or (v d : JsVal) : nullish d = false -> nullish (or v d) = false.
Proof.
  intros H. unfold or. destruct (truthy v) eqn:T; [|exact H]. now destruct v.
Qed.

Lemma nullish_coalesce (v d : JsVal) : nullish d = false -> nullish (coalesce v d) = false.
Proof. intros H. unfold coalesce. now destruct v. Qed.

(** X9: the value [getValue] resolves is [null] or [undefined] only for
    the sourced items "Fair Market Value" and "Offer Price", the two cases
    returned without a default; every other item resolves to a value (a
    stored one, a default, or the error text). *)
Theorem getValue_nullish (i : PropertyItem) (p : Property) :
  nullish (getValue i p) = true ->
  value_type i = ApiData
  /\ exists a : gmap string JsVal,
       api_data p = Some a
       /\ ((name i = "Fair Market Value"%string
            /\ nullish (get a "fair_market_value") = true)
           \/ (name i = "Offer Price"%string
               /\ nullish (get a "offer_price") = true)).
Proof.
  unfold getValue, getValue_try. destruct (value_type i).
  - destruct (api_data p) as [a|]; cbn [member mbind option_bind].
    + repeat match goal with
             | |- context [String.eqb (name i) ?t] =>
                 destruct (String.eqb_spec (name i) t) as [E|]
             end;
        try (rewrite nullish_or by reflexivity; discriminate);
        try discriminate.
      * intros H. split; [reflexivity|]. exists a. split; [reflexivity|].
        left. now split.
      * intros H. split; [reflexivity|]. exists a. split; [reflexivity|].
        right. now split.
    + repeat match goal with
             | |- context [String.eqb (name i) ?t] => destruct (String.eqb (name i) t)
             end; discriminate.
  - destruct (user_inputs p); cbn; [|discriminate].
    now rewrite nullish_coalesce.
  - destruct (calculated_data p); cbn; [|discriminate].
    now rewrite nullish_coalesce.
Qed.

Lemma getValue_nullish_witness :
  getValue (item "Offer Price" ApiData "Purchase Info" "currency") Sample.flat
  = JUndefined
  /\ value_type (item "Offer Price" ApiData "Purchase Info" "currency") = ApiData.
Proof.
  split; [vm_compute; reflexivity|].
  destruct (getValue_nullish (item "Offer Price" ApiData "Purchase Info" "currency")
              Sample.flat eq_refl) as [H _].
  exact H.
Defined.

Lemma format_is_number (i : PropertyItem) :
  format_is "number" i = true ->
  format_is "percentage" i = false /\ format_is "currency" i = false.
Proof.
  unfold format_is. destruct (format i) as [g|]; [|discriminate].
  intros H. apply String.eqb_eq in H as ->. split; reflexivity.
Qed.

Lemma formatValue_agrees (i : PropertyItem) (x : float) :
  nameAgreesWithFormat i = true ->
  formatValue (JNum x) i
  = if format_is "percentage" i then formatPercentage (JNum x)
    else if format_is "currency" i then formatCurrency (JsNum.Math_round x)
    else formatNumber (JsNum.Math_round x).
Proof.
  unfold nameAgreesWithFormat, namedAsPercentage. intros H.
  unfold formatValue. cbn [nullish].
  destruct (format_is "percentage" i) eqn:P; [reflexivity|].
  cbn [orb negb andb] in H |- *.
  destruct (format_is "currency" i) eqn:C.
  - cbn [andb orb] in H. apply orb_prop in H as [H|H].
    + apply negb_true_iff, orb_false_elim in H as [-> ->]. reflexivity.
    + apply andb_prop in H as [H _]. apply andb_prop in H as [H _].
      apply format_is_number in H as [_ H]. congruence.
  - cbn [andb orb] in H. apply andb_prop in H as [H Hc].
    apply andb_prop in H as [_ H].
    apply negb_true_iff, orb_false_elim in H as [-> ->].
    apply negb_true_iff in Hc. unfold namedAsCurrency in Hc. cbn [existsb] in Hc.
    repeat (apply orb_false_elim in Hc as [-> Hc]). reflexivity.
Qed.

Lemma registry_names_agree (i : PropertyItem) :
  In i allItems ->
  name i <> "Less Pro-Ration of Rents"%string ->
  nameAgreesWithFormat i = true.
Proof.
  intros Hi Hname.
  assert (H : forallb (fun j => nameAgreesWithFormat j
                                || String.eqb (name j) "Less Pro-Ration of Rents")
                allItems = true) by (vm_compute; reflexivity).
  rewrite forallb_forall in H. specialize (H i Hi).
  apply orb_prop in H as [H|H]; [exact H|].
  apply String.eqb_eq in H. contradiction.
Qed.

(** X10: for every item of the registry except "Less Pro-Ration of Rents",
    [formatValue] writes a number in the format the item declares: a
    percentage as one hundred times the number with two decimals and a
    percent sign, a currency as the rounded number in dollars, a number as
    the rounded number; the tests on the display name change nothing. *)
Theorem formatValue_registry (i : PropertyItem) (x : float) :
  In i allItems ->
  name i <> "Less Pro-Ration of Rents"%string ->
  formatValue (JNum x) i
  = if format_is "percentage" i then formatPercentage (JNum x)
    else if format_is "currency" i then formatCurrency (JsNum.Math_round x)
    else formatNumber (JsNum.Math_round x).
Proof.
  intros Hi Hname. now apply formatValue_agrees, registry_names_agree.
Qed.

Lemma formatValue_registry_witness :
  formatValue (JNum 0.0725%float) (item "Cap Rate on PP" Calculated "Quick Analysis" "percentage")
  = "7.25%"%string.
Proof.
  rewrite formatValue_registry;
    [vm_compute; reflexivity | in_at allItems 81%nat | discriminate].
Defined.

Lemma registry_calculated_names (i : PropertyItem) :
  In i allItems ->
  is_calculated i = true ->
  name i <> "Address"%string /\ name i <> "Less Pro-Ration of Rents"%string.
Proof.
  intros Hi Hc.
  assert (H : forallb (fun j => negb (is_calculated j)
                                || (negb (String.eqb (name j) "Address")
                                    && negb (String.eqb (name j)
                                               "Less Pro-Ration of Rents")))
                allItems = true) by (vm_compute; reflexivity).
  rewrite forallb_forall in H. specialize (H i Hi). rewrite Hc in H.
  cbn [negb orb] in H. apply andb_prop in H as [H1 H2].
  apply negb_true_iff in H1, H2. split; intros E; rewrite E in *; discriminate.
Qed.

Lemma is_calculated_not_input (i : PropertyItem) :
  is_calculated i = true -> is_api_data i || is_user_input i = false.
Proof. unfold is_calculated, is_api_data, is_user_input. now destruct (value_type i). Qed.

(** X11: when the snapshot on display has no [calculated_data], every
    calculated item of the registry is shown, in place of a value or of an
    error message, as the text "NaN%" (a percentage), "$NaN" (a currency)
    or "NaN" (a number): the error text of [getValue] goes through
    [formatValue] as a number. *)
Theorem missing_calculated_data_rendering (st : State) (i : PropertyItem)
    (p : Property) :
  In i allItems ->
  is_calculated i = true ->
  calculated_data p = None ->
  renderValue st i p
  = Some (Text (if format_is "percentage" i then "NaN%"
                else if format_is "currency" i then "$NaN" else "NaN")).
Proof.
  intros Hi Hc Hp. destruct (registry_calculated_names i Hi Hc) as [Ha Hl].
  pose proof (registry_names_agree i Hi Hl) as Hagree.
  assert (Hv : getValue i p = JStr "Error loading data").
  { apply getValue_try_error. unfold getValue_try.
    unfold is_calculated in Hc. destruct (value_type i); try discriminate Hc.
    now rewrite Hp. }
  unfold renderValue. rewrite Hv.
  destruct (String.eqb_spec (name i) "Address"); [contradiction|].
  rewrite (is_calculated_not_input i Hc). do 2 f_equal.
  change (coalesce (JStr "Error loading data") (JNum 0)) with (JStr "Error loading data").
  revert Hagree. unfold nameAgreesWithFormat, namedAsPercentage, formatValue.
  cbn [nullish]. intros H.
  destruct (format_is "percentage" i) eqn:P; [vm_compute; reflexivity|].
  cbn [orb negb andb] in H |- *.
  destruct (format_is "currency" i) eqn:C.
  - cbn [andb orb] in H. apply orb_prop in H as [H|H].
    + apply negb_true_iff, orb_false_elim in H as [-> ->]. vm_compute. reflexivity.
    + apply andb_prop in H as [H _]. apply andb_prop in H as [H _].
      apply format_is_number in H as [_ H]. congruence.
  - cbn [andb orb] in H. apply andb_prop in H as [H Hn].
    apply andb_prop in H as [_ H].
    apply negb_true_iff, orb_false_elim in H as [-> ->].
    apply negb_true_iff in Hn. unfold namedAsCurrency in Hn. cbn [existsb] in Hn.
    repeat (apply orb_false_elim in Hn as [-> Hn]). vm_compute. reflexivity.
Qed.

Lemma missing_calculated_data_rendering_witness :
  renderValue Sample.editing Sample.totalIncome
    {| api_data := Some Sample.houseApi; calculated_data := None;
       user_inputs := Some Sample.houseInputs; cashflow_per_unit := 0%float |}
  = Some (Text "$NaN").
Proof.
  apply (missing_calculated_data_rendering Sample.editing Sample.totalIncome);
    [|reflexivity ..].
  unfold Sample.totalIncome. in_at allItems 38%nat.
Defined.

(** ** Failures and saving *)

Lemma showing_fields (st : State) :
  showing st = true ->
  isLoading st = false
  /\ (exists p, currentProperty st = Some p)
  /\ (error st = None \/ error st = Some ""%string).
Proof.
  unfold showing, view. destruct (isLoading st); [discriminate|].
  destruct (error st) as [m|].
  - destruct (String.eqb_spec m ""); [subst m|discriminate].
    destruct (currentProperty st) as [p|]; [|discriminate].
    intros _. split; [reflexivity|]. split; [now exists p | now right].
  - destruct (currentProperty st) as [p|]; [|discriminate].
    intros _. split; [reflexivity|]. split; [now exists p | now left].
Qed.

(** X12: on the report, a rejected recalculation, a rejected save, and a
    click on either save button without a token each replace the whole
    report by the error screen with the message of the failure; the
    snapshot and the pending edits are kept, but no input and no
    recalculation is reachable any more, and "Try Again" fetches the
    property from the service again. *)
Theorem failure_replaces_report (st : State) (e : Event) (m : string) :
  showing st = true ->
  In (e, m)
    [(RecalculateRejected, "Failed to recalculate values");
     (SavePropertyRejected, "Failed to save property");
     (SaveUserInputsRejected, "Failed to save default inputs");
     (ClickSaveProperty None, "Please login to save properties");
     (ClickSaveUserInputs None, "Please login to save default inputs")]%string ->
  let st' := fst (step st e) in
  view st' = Failed m
  /\ snd (step st e) = []
  /\ propertyDetail st' = propertyDetail st
  /\ modifiedValues st' = modifiedValues st
  /\ (forall (i : PropertyItem) (text : string),
        step st' (InputChange i text) = (st', []))
  /\ step st' ClickRecalculate = (st', [])
  /\ (forall id : string,
        query_id st = Some id -> id <> ""%string ->
        snd (step st' ClickTryAgain) = [GetProperty id]
        /\ view (fst (step st' ClickTryAgain)) = Loading
        /\ modifiedValues (fst (step st' ClickTryAgain)) = modifiedValues st).
Proof.
  intros Hs Hin st'. destruct (showing_fields st Hs) as (Hl & _ & _).
  assert (Hst : st' = setIsRecalculating (isRecalculating st' ) (setError (Some m) st)
                /\ snd (step st e) = []
                /\ m <> ""%string).
  { subst st'. cbn [In] in Hin.
    repeat (destruct Hin as [Hin|Hin];
            [injection Hin as <- <-; cbn [step]; rewrite ?Hs;
             (split; [reflexivity|]); (split; [reflexivity | discriminate])|]).
    contradiction. }
  destruct Hst as (Hst & Hreq & Hm).
  assert (Hv : view st' = Failed m).
  { rewrite Hst. unfold view. cbn. rewrite Hl.
    destruct (String.eqb_spec m ""); [contradiction | reflexivity]. }
  assert (Hns : showing st' = false) by (unfold showing; now rewrite Hv).
  split; [exact Hv|]. split; [exact Hreq|].
  split; [now rewrite Hst|]. split; [now rewrite Hst|].
  split; [intros i text; cbn [step]; now rewrite Hns|].
  split; [cbn [step]; now rewrite Hns|].
  intros id Hid Hne. cbn [step]. rewrite Hv. unfold fetchPropertyDetail.
  replace (query_id (setError None st')) with (Some id) by (rewrite Hst; now cbn).
  destruct (String.eqb_spec id ""); [contradiction|].
  split; [reflexivity|]. split; [reflexivity|]. now rewrite Hst.
Qed.

Lemma failure_replaces_report_witness :
  view (run Sample.editing [ClickRecalculate; RecalculateRejected])
  = Failed "Failed to recalculate values"
  /\ step (run Sample.editing [ClickRecalculate; RecalculateRejected])
       (InputChange Sample.vacancyRate "7")
     = (run Sample.editing [ClickRecalculate; RecalculateRejected], []).
Proof.
  destruct (failure_replaces_report (run Sample.editing [ClickRecalculate])
              RecalculateRejected "Failed to recalculate values")
    as (Hv & _ & _ & _ & Hi & _); [reflexivity | now left |].
  split; [exact Hv | apply Hi].
Defined.

Lemma snapshot_input_changes (es : list Event) (st : State) :
  forallb is_input_change es = true ->
  propertyDetail (run st es) = propertyDetail st
  /\ query_id (run st es) = query_id st.
Proof.
  revert st. induction es as [|e es IH]; intros st Hes; [now split|].
  cbn [forallb] in Hes. apply andb_prop in Hes as [He Hes].
  change (run st (e :: es)) with (run (fst (step st e)) es).
  destruct (IH (fst (step st e)) Hes) as [-> ->].
  destruct e; try discriminate He. cbn [step].
  destruct (showing st && has_input i); [|now split].
  destruct (onChange_stores i text st) as (x & -> & _). now split.
Qed.

(** X13: neither save request carries a pending edit.  After any number
    of changes typed in the inputs, "Save Property" still posts the
    snapshot as the service returned it, and "Save Default Inputs" its
    user inputs; both send nothing without a token. *)
Theorem saves_ignore_edits (st : State) (es : list Event) (token : option string) :
  forallb is_input_change es = true ->
  snd (handleSaveProperty token (run st es)) = snd (handleSaveProperty token st)
  /\ snd (handleSaveDefaultInputs token (run st es))
     = snd (handleSaveDefaultInputs token st)
  /\ (forall (t : string) (p : Property),
        token = Some t -> t <> ""%string -> currentProperty st = Some p ->
        snd (handleSaveProperty token (run st es))
        = [PostSaveProperty (query_id st) (Some p)]
        /\ snd (handleSaveDefaultInputs token (run st es))
           = [PostUserInputs (user_inputs p)])
  /\ (token = None \/ token = Some ""%string ->
      snd (handleSaveProperty token (run st es)) = []
      /\ snd (handleSaveDefaultInputs token (run st es)) = []).
Proof.
  intros Hes. destruct (snapshot_input_changes es st Hes) as [Hd Hq].
  assert (Hp : currentProperty (run st es) = currentProperty st)
    by (unfold currentProperty; now rewrite Hd).
  unfold handleSaveProperty, handleSaveDefaultInputs. rewrite Hd, Hq, Hp.
  split; [|split; [|split]].
  - destruct token as [t|]; [|reflexivity]. now destruct (String.eqb t "").
  - destruct token as [t|]; [|reflexivity]. destruct (String.eqb t ""); [reflexivity|].
    destruct (propertyDetail st) as [d|]; [|reflexivity].
    now destruct (head (properties d)).
  - intros t p -> Ht Hcp. destruct (String.eqb_spec t ""); [contradiction|].
    rewrite Hcp. split; [reflexivity|].
    unfold currentProperty in Hcp. destruct (propertyDetail st) as [d|]; [|discriminate].
    cbn in Hcp. now rewrite Hcp.
  - intros [->| ->]; now split.
Qed.

Lemma saves_ignore_edits_witness :
  snd (handleSaveDefaultInputs (Some "token") Sample.editing)
  = [PostUserInputs (Some Sample.houseInputs)].
Proof.
  destruct (saves_ignore_edits (run (fst (mount (Some "P1")))
                                  [FetchResolved (Sample.detail Sample.house)])
              [InputChange Sample.vacancyRate "6"] (Some "token") eq_refl)
    as (_ & _ & H & _).
  destruct (H "token"%string Sample.house eq_refl) as [_ Hu];
    [discriminate | reflexivity |].
  exact Hu.
Defined.

(** X21: on the report, with no recalculation pending and a snapshot that
    has its sourced facts and its user inputs, a click on "Recalculate"
    sends one request, with the identifier of the route and the fifty
    values collected; the report stays on display with the button
    disabled, and a second click before the answer sends nothing. *)
Theorem recalculate_request (st : State) (p : Property) (a u : gmap string JsVal) :
  showing st = true ->
  isRecalculating st = false ->
  currentProperty st = Some p ->
  api_data p = Some a ->
  user_inputs p = Some u ->
  let st' := fst (step st ClickRecalculate) in
  snd (step st ClickRecalculate)
  = [PostRecalculate (query_id st)
       (sourcedEntries a
        ++ List.map (fun e => (fst e, payloadValue st u (fst e))) userInputMappings)]
  /\ st' = setIsRecalculating true st
  /\ view st' = Showing p
  /\ step st' ClickRecalculate = (st', []).
Proof.
  intros Hs Hr Hp Ha Hu. cbn zeta. cbn [step]. rewrite Hs, Hr. cbn [andb negb].
  unfold handleRecalculate.
  rewrite (collectCurrentValues_shape (setIsRecalculating true st) p a u Hp Ha Hu).
  cbn [fst snd]. split; [reflexivity|]. split; [reflexivity|].
  assert (Hv : view (setIsRecalculating true st) = Showing p).
  { destruct (showing_fields st Hs) as (Hl & _ & He).
    unfold view. cbn [isLoading error setIsRecalculating].
    change (currentProperty (setIsRecalculating true st)) with (currentProperty st).
    rewrite Hl, Hp. now destruct He as [-> | ->]. }
  split; [exact Hv|].
  cbn [isRecalculating setIsRecalculating negb]. now rewrite andb_false_r.
Qed.

Lemma recalculate_request_witness :
  exists values : Obj JsVal,
    snd (step Sample.editing ClickRecalculate)
    = [PostRecalculate (Some "P1"%string) values]
    /\ entries_for "vacancy_rate" values = [("vacancy_rate"%string, JNum 0.06%float)]
    /\ step (fst (step Sample.editing ClickRecalculate)) ClickRecalculate
       = (fst (step Sample.editing ClickRecalculate), []).
Proof.
  destruct (recalculate_request Sample.editing Sample.house Sample.houseApi
              Sample.houseInputs) as (Hreq & _ & _ & Hagain); [reflexivity ..|].
  eexists. split; [exact Hreq|]. split; [vm_compute; reflexivity | exact Hagain].
Defined.

(** * Further properties of the account page *)

(** ** The key-case converters *)

Lemma code_lower_char (c : ascii) :
  Str.is_upper c = true -> Str.code (Str.lower_char c) = Str.code c + 32.
Proof.
  intros H. unfold Str.lower_char. rewrite H. unfold Str.is_upper, Str.code in *.
  rewrite nat_ascii_embedding; lia.
Qed.

Lemma code_upper_char (c : ascii) :
  Str.is_lower c = true -> Str.code (Str.upper_char c) = Str.code c - 32.
Proof.
  intros H. unfold Str.upper_char. rewrite H. unfold Str.is_lower, Str.code in *.
  rewrite nat_ascii_embedding; lia.
Qed.

Lemma lower_char_is_lower (c : ascii) :
  Str.is_upper c = true -> Str.is_lower (Str.lower_char c) = true.
Proof.
  intros H. pose proof (code_lower_char c H) as E.
  unfold Str.is_lower, Str.is_upper in *. lia.
Qed.

Lemma upper_lower_char (c : ascii) :
  Str.is_upper c = true -> Str.upper_char (Str.lower_char c) = c.
Proof.
  intros H. unfold Str.upper_char. rewrite (lower_char_is_lower c H).
  unfold Str.lower_char. rewrite H. unfold Str.is_upper, Str.code in H.
  rewrite nat_ascii_embedding by lia.
  replace (nat_of_ascii c + 32 - 32)%nat with (nat_of_ascii c) by lia.
  apply ascii_nat_embedding.
Qed.

Lemma lower_char_no_upper (c : ascii) : Str.is_upper (Str.lower_char c) = false.
Proof.
  destruct (Str.is_upper c) eqn:H.
  - apply is_lower_not_upper, lower_char_is_lower, H.
  - now rewrite lower_char_not_upper.
Qed.

Lemma camelToSnakeKey_no_capital (k : string) :
  no_upper (CaseConv.camelToSnakeKey k) = true.
Proof.
  induction k as [|c k IH]; [reflexivity|].
  rewrite CaseConvFacts.camelToSnakeKey_step.
  destruct (Str.is_upper c) eqn:Hc.
  - rewrite !no_upper_cons, lower_char_no_upper, IH. reflexivity.
  - rewrite no_upper_cons, Hc, IH. reflexivity.
Qed.

Section AssignInvariant.
Context {A : Type} (P : string * A -> Prop).

Lemma Forall_replace_value (o : Obj A) (k : string) (v : A) :
  Forall P o -> P (k, v) -> Forall P (replace_value k v o).
Proof.
  intros Ho Hk. induction Ho as [|[k' v'] o H Ho IH]; cbn; [constructor|].
  destruct (String.eqb_spec k' k) as [->|]; constructor; assumption.
Qed.

Lemma Forall_insert_index (n : Z) (o : Obj A) (k : string) (v : A) :
  Forall P o -> P (k, v) -> Forall P (insert_index n k v o).
Proof.
  intros Ho Hk. induction Ho as [|[k' v'] o H Ho IH]; cbn; [now repeat constructor|].
  destruct (array_index k') as [n'|]; [destruct (n' <? n)|];
    repeat (constructor; try assumption).
Qed.

Lemma Forall_assign (o : Obj A) (k : string) (v : A) :
  Forall P o -> P (k, v) -> Forall P (assign o k v).
Proof.
  intros Ho Hk. unfold assign.
  destruct (String.eqb k "__proto__"); [exact Ho|].
  destruct (has_key k o); [now apply Forall_replace_value|].
  destruct (array_index k); [now apply Forall_insert_index|].
  apply Forall_app. split; [exact Ho | now repeat constructor].
Qed.

Lemma Forall_fold_assign {E : Type} (kf : E -> string) (vf : E -> A) (l : list E)
    (o : Obj A) :
  Forall P o -> (forall e, In e l -> P (kf e, vf e)) ->
  Forall P (fold_left (fun acc e => assign acc (kf e) (vf e)) l o).
Proof.
  revert o. induction l as [|e l IH]; intros o Ho Hl; [exact Ho|].
  cbn [fold_left]. apply IH.
  - apply Forall_assign; [exact Ho | apply Hl; now left].
  - intros e' He'. apply Hl. now right.
Qed.
End AssignInvariant.

(** X14: whatever value [convertCamelToSnake] is given, no key of its
    result, at any depth, holds a capital letter. *)
Theorem convertCamelToSnake_keys (j : CaseConv.Json) :
  CaseConv.keys_ok no_upper (CaseConv.convertCamelToSnake j) = true.
Proof.
  induction j as [v | items IH | fields IH] using CaseConvFacts.Json_induction.
  - reflexivity.
  - cbn [CaseConv.convertCamelToSnake CaseConv.keys_ok].
    rewrite forallb_forall. intros x Hx. apply in_map_iff in Hx as (y & <- & Hy).
    rewrite List.Forall_forall in IH. now apply IH.
  - cbn [CaseConv.convertCamelToSnake CaseConv.keys_ok].
    rewrite forallb_forall. apply List.Forall_forall.
    apply (Forall_fold_assign
             (fun kv => no_upper (fst kv) && CaseConv.keys_ok no_upper (snd kv) = true)
             (fun kv => CaseConv.camelToSnakeKey (fst kv))
             (fun kv => CaseConv.convertCamelToSnake (snd kv))); [constructor|].
    intros kv Hkv. cbn [fst snd]. rewrite camelToSnakeKey_no_capital.
    rewrite List.Forall_forall in IH. now apply IH.
Qed.

Lemma upper_char_not_lower (d : ascii) :
  Str.is_lower d = true -> Str.is_lower (Str.upper_char d) = false.
Proof.
  intros H. pose proof (code_upper_char d H) as E. unfold Str.is_lower in *. lia.
Qed.

Lemma is_upper_not_underscore (d : ascii) :
  Str.is_upper d = true -> Ascii.eqb d "_" = false.
Proof. destruct (Ascii.eqb_spec d "_") as [->|]; [discriminate | reflexivity]. Qed.

(** The first character of a converted key is a lower-case letter only
    when the first character of the key is. *)
Lemma snakeToCamelKey_head (d : ascii) (r : string) :
  Str.is_lower d = false ->
  match CaseConv.snakeToCamelKey (String d r) with
  | String e _ => Str.is_lower e = false
  | EmptyString => True
  end.
Proof.
  intros Hd. destruct r as [|d2 r]; [exact Hd|].
  rewrite CaseConvFacts.snakeToCamelKey_step.
  destruct (Ascii.eqb d "_" && Str.is_lower d2) eqn:Hm; [|exact Hd].
  apply andb_prop in Hm as [_ H2]. now apply upper_char_not_lower.
Qed.

Lemma camel_style_cons (c : ascii) (r : string) :
  camel_style (String c r)
  = match r with
    | String d _ => negb (Ascii.eqb c "_" && Str.is_lower d)
    | EmptyString => true
    end && camel_style r.
Proof. reflexivity. Qed.

Lemma snakeToCamelKey_camel_style_bounded (n : nat) (k : string) :
  (String.length k <= n)%nat -> camel_style (CaseConv.snakeToCamelKey k) = true.
Proof.
  revert k. induction n as [|n IH]; intros k Hlen.
  - destruct k; [reflexivity | cbn in Hlen; lia].
  - destruct k as [|c r]; [reflexivity|]. cbn [String.length] in Hlen.
    destruct r as [|d r']; [reflexivity|].
    rewrite CaseConvFacts.snakeToCamelKey_step.
    destruct (Ascii.eqb c "_" && Str.is_lower d) eqn:Hm.
    + apply andb_prop in Hm as [_ Hd]. rewrite camel_style_cons.
      rewrite IH by (cbn [String.length] in Hlen; lia).
      rewrite (is_upper_not_underscore _ (CaseConvFacts.upper_char_is_upper d Hd)).
      now destruct (CaseConv.snakeToCamelKey r').
    + rewrite camel_style_cons. rewrite IH by lia. rewrite andb_true_r.
      destruct (Ascii.eqb c "_") eqn:Hc; cbn [andb] in Hm |- *.
      * pose proof (snakeToCamelKey_head d r' Hm) as Hh.
        destruct (CaseConv.snakeToCamelKey (String d r')) as [|e t]; [reflexivity|].
        now rewrite Hh.
      * now destruct (CaseConv.snakeToCamelKey (String d r')).
Qed.

Lemma snakeToCamelKey_camel_style (k : string) :
  camel_style (CaseConv.snakeToCamelKey k) = true.
Proof. apply (snakeToCamelKey_camel_style_bounded (String.length k)). lia. Qed.

(** X15: whatever value [convertSnakeToCamel] is given, no key of its
    result, at any depth, holds a "_" followed by a lower-case letter. *)
Theorem convertSnakeToCamel_keys (j : CaseConv.Json) :
  CaseConv.keys_ok camel_style (CaseConv.convertSnakeToCamel j) = true.
Proof.
  induction j as [v | items IH | fields IH] using CaseConvFacts.Json_induction.
  - reflexivity.
  - cbn [CaseConv.convertSnakeToCamel CaseConv.keys_ok].
    rewrite forallb_forall. intros x Hx. apply in_map_iff in Hx as (y & <- & Hy).
    rewrite List.Forall_forall in IH. now apply IH.
  - cbn [CaseConv.convertSnakeToCamel CaseConv.keys_ok].
    rewrite forallb_forall. apply List.Forall_forall.
    apply (Forall_fold_assign
             (fun kv => camel_style (fst kv) && CaseConv.keys_ok camel_style (snd kv)
                        = true)
             (fun kv => CaseConv.snakeToCamelKey (fst kv))
             (fun kv => CaseConv.convertSnakeToCamel (snd kv))); [constructor|].
    intros kv Hkv. cbn [fst snd]. rewrite snakeToCamelKey_camel_style.
    rewrite List.Forall_forall in IH. now apply IH.
Qed.

(** On a camel-style key, camel-to-snake then snake-to-camel gives the key
    back. *)
Lemma camel_key_round_trip (k : string) :
  camel_style k = true ->
  CaseConv.snakeToCamelKey (CaseConv.camelToSnakeKey k) = k.
Proof.
  induction k as [|c r IH]; intros Hk; [reflexivity|].
  rewrite camel_style_cons in Hk. apply andb_prop in Hk as [Hc Hr].
  rewrite CaseConvFacts.camelToSnakeKey_step.
  destruct (Str.is_upper c) eqn:Hu.
  - rewrite CaseConvFacts.snakeToCamelKey_step.
    change (Ascii.eqb "_" "_") with true.
    rewrite (lower_char_is_lower c Hu), (upper_lower_char c Hu). cbn [andb].
    now rewrite IH.
  - destruct r as [|e r0]; [reflexivity|].
    specialize (IH Hr).
    destruct (CaseConv.camelToSnakeKey (String e r0)) as [|d t] eqn:Et.
    { rewrite CaseConvFacts.camelToSnakeKey_step in Et. now destruct (Str.is_upper e). }
    rewrite CaseConvFacts.snakeToCamelKey_step.
    destruct (Ascii.eqb c "_" && Str.is_lower d) eqn:Hm; [|now rewrite IH].
    apply andb_prop in Hm as [Hcu Hd].
    rewrite CaseConvFacts.camelToSnakeKey_step in Et.
    destruct (Str.is_upper e) eqn:He.
    + injection Et as <- _. discriminate Hd.
    + injection Et as <- _. rewrite Hcu, Hd in Hc. discriminate Hc.
Qed.

Lemma snakeToCamelKey_digits (s : string) :
  forallb Str.is_digit (list_ascii_of_string s) = true ->
  CaseConv.snakeToCamelKey s = s.
Proof.
  induction s as [|c r IH]; intros H; [reflexivity|].
  cbn [list_ascii_of_string forallb] in H. apply andb_prop in H as [Hc Hr].
  destruct r as [|d r']; [reflexivity|].
  rewrite CaseConvFacts.snakeToCamelKey_step.
  assert (Hne : Ascii.eqb c "_" = false)
    by (destruct (Ascii.eqb_spec c "_") as [->|]; [discriminate Hc | reflexivity]).
  rewrite Hne. cbn [andb]. now rewrite IH.
Qed.

Lemma camelToSnakeKey_assignable (k : string) :
  camel_key k = true -> assignable (CaseConv.camelToSnakeKey k) = true.
Proof.
  unfold camel_key. intros H. apply andb_prop in H as [H Hp].
  apply andb_prop in H as [Hs Ha].
  pose proof (camel_key_round_trip k Hs) as Hrt. unfold assignable in *.
  apply andb_prop in Ha as [_ Hi]. apply andb_true_intro. split.
  - apply negb_true_iff.
    destruct (String.eqb_spec (CaseConv.camelToSnakeKey k) "__proto__") as [E|];
      [|reflexivity].
    rewrite E in Hrt. cbn in Hrt. subst k. discriminate Hp.
  - destruct (array_index (CaseConv.camelToSnakeKey k)) as [n|] eqn:E; [|reflexivity].
    assert (Hd : forallb Str.is_digit
                   (list_ascii_of_string (CaseConv.camelToSnakeKey k)) = true).
    { unfold array_index in E.
      destruct (forallb Str.is_digit _); [reflexivity | discriminate E]. }
    rewrite (snakeToCamelKey_digits _ Hd) in Hrt. rewrite Hrt in E.
    now rewrite E in Hi.
Qed.

Lemma round_trip_camel (j : CaseConv.Json) :
  CaseConv.keys_ok camel_key j = true ->
  CaseConv.well_formed j = true ->
  CaseConv.convertSnakeToCamel (CaseConv.convertCamelToSnake j) = j.
Proof.
  induction j as [v | items IH | fields IH] using CaseConvFacts.Json_induction;
    intros Hk Hw.
  - reflexivity.
  - cbn [CaseConv.convertSnakeToCamel CaseConv.convertCamelToSnake]. f_equal.
    rewrite List.map_map.
    cbn [CaseConv.keys_ok CaseConv.well_formed] in Hk, Hw.
    rewrite forallb_forall in Hk, Hw. rewrite List.Forall_forall in IH.
    rewrite <- (List.map_id items) at 2. apply List.map_ext_in.
    intros x Hx. now apply IH; [| apply Hk | apply Hw].
  - cbn [CaseConv.keys_ok CaseConv.well_formed] in Hk, Hw.
    apply andb_prop in Hw as [Hd Hw].
    rewrite forallb_forall in Hk, Hw. rewrite List.Forall_forall in IH.
    assert (Hkey : forall kv, In kv fields -> camel_key (fst kv) = true).
    { intros kv Hkv. specialize (Hk kv Hkv). now apply andb_prop in Hk as [? _]. }
    assert (Hrt : Forall (fun a => CaseConv.snakeToCamelKey (CaseConv.camelToSnakeKey a)
                                   = a)
                    (List.map fst fields)).
    { apply List.Forall_forall. intros a Ha. apply in_map_iff in Ha as (kv & <- & Hkv).
      apply camel_key_round_trip. specialize (Hkey kv Hkv). unfold camel_key in Hkey.
      apply andb_prop in Hkey as [Hkey _]. now apply andb_prop in Hkey as [? _]. }
    cbn [CaseConv.convertCamelToSnake].
    rewrite (fold_assign_fresh (fun kv => CaseConv.camelToSnakeKey (fst kv))
               (fun kv => CaseConv.convertCamelToSnake (snd kv)) fields []).
    2:{ apply forallb_forall. intros a Ha. apply in_map_iff in Ha as (kv & <- & Hkv).
        apply camelToSnakeKey_assignable, Hkey, Hkv. }
    2:{ cbn [List.map app]. rewrite <- (List.map_map fst CaseConv.camelToSnakeKey).
        now rewrite (CaseConvFacts.distinct_map_inj CaseConv.camelToSnakeKey
                       CaseConv.snakeToCamelKey). }
    cbn [app CaseConv.convertSnakeToCamel].
    rewrite (fold_assign_fresh (fun kv => CaseConv.snakeToCamelKey (fst kv))
               (fun kv => CaseConv.convertSnakeToCamel (snd kv)) _ []).
    2:{ rewrite List.map_map. cbn [fst]. apply forallb_forall. intros a Ha.
        apply in_map_iff in Ha as (kv & <- & Hkv).
        rewrite List.Forall_forall in Hrt.
        rewrite (Hrt (fst kv)) by now apply in_map.
        specialize (Hkey kv Hkv). unfold camel_key in Hkey.
        apply andb_prop in Hkey as [Hkey _]. now apply andb_prop in Hkey as [_ ?]. }
    2:{ cbn [List.map app]. rewrite List.map_map. cbn [fst].
        rewrite <- (List.map_map fst
                      (fun k => CaseConv.snakeToCamelKey (CaseConv.camelToSnakeKey k))).
        rewrite (List.map_ext_in _ (fun k => k)), List.map_id; [exact Hd|].
        intros a Ha. rewrite List.Forall_forall in Hrt. now apply Hrt. }
    cbn [app]. f_equal. rewrite List.map_map. cbn [fst snd].
    rewrite <- (List.map_id fields) at 2. apply List.map_ext_in.
    intros [k x] Hkv. cbn [fst snd]. f_equal.
    + rewrite List.Forall_forall in Hrt. apply Hrt. now apply (in_map fst _ (k, x)).
    + apply (IH (k, x) Hkv).
      * specialize (Hk (k, x) Hkv). now apply andb_prop in Hk as [_ ?].
      * now apply (Hw (k, x)).
Qed.

(** X16: camel to snake and back gives a key again exactly when the key
    is in camel style (no "_" of it is followed by a lower-case letter);
    and for every value whose keys, at every depth, are camel-style keys
    other than an array index, [__proto__] and [_Proto__], and whose
    objects hold no key twice, converting the keys from camel to snake
    case and then back from snake to camel case yields the value itself. *)
Theorem camel_round_trip :
  (forall k : string,
      CaseConv.snakeToCamelKey (CaseConv.camelToSnakeKey k) = k
      <-> camel_style k = true)
  /\ (forall j : CaseConv.Json,
        CaseConv.keys_ok camel_key j = true ->
        CaseConv.well_formed j = true ->
        CaseConv.convertSnakeToCamel (CaseConv.convertCamelToSnake j) = j).
Proof.
  split.
  - intros k. split; [|apply camel_key_round_trip].
    intros E. rewrite <- E. apply snakeToCamelKey_camel_style.
  - apply round_trip_camel.
Qed.

Lemma camel_round_trip_witness :
  CaseConv.convertCamelToSnake (CaseConv.Object MyPage.defaultParams)
  = CaseConv.Object
      (List.map (fun kv => (CaseConv.camelToSnakeKey (fst kv), snd kv))
         MyPage.defaultParams)
  /\ CaseConv.convertSnakeToCamel
       (CaseConv.convertCamelToSnake (CaseConv.Object MyPage.defaultParams))
     = CaseConv.Object MyPage.defaultParams.
Proof.
  split; [vm_compute; reflexivity|].
  destruct camel_round_trip as [_ H]. apply H; vm_compute; reflexivity.
Defined.

(** X22: snake to camel and back gives a key again exactly when the key
    holds no capital letter. *)
Theorem snake_key_round_trip (k : string) :
  CaseConv.camelToSnakeKey (CaseConv.snakeToCamelKey k) = k <-> no_upper k = true.
Proof.
  split; [|apply CaseConvFacts.key_round_trip].
  intros E. rewrite <- E. apply camelToSnakeKey_no_capital.
Qed.

Lemma snake_key_round_trip_witness :
  CaseConv.snakeToCamelKey "first_mtg_interest_rate" = "firstMtgInterestRate"%string
  /\ CaseConv.camelToSnakeKey (CaseConv.snakeToCamelKey "first_mtg_interest_rate")
     = "first_mtg_interest_rate"%string.
Proof. split; [reflexivity|]. apply snake_key_round_trip. reflexivity. Defined.

(** ** The forms of the account page *)

Section Define.
Context {A : Type}.
Implicit Types (o : Obj A) (k : string) (v : A).

Lemma own_has_key o k : has_key k o = false -> MyPage.own o k = None.
Proof.
  induction o as [|[k' v'] o IH]; cbn; [reflexivity|].
  destruct (String.eqb k' k); [discriminate | exact IH].
Qed.

Lemma own_replace_value_eq o k v :
  has_key k o = true -> MyPage.own (replace_value k v o) k = Some v.
Proof.
  induction o as [|[k' v'] o IH]; cbn; [discriminate|].
  destruct (String.eqb k' k) eqn:E; cbn; rewrite E; [reflexivity | exact IH].
Qed.

Lemma own_replace_value_ne o k k' v :
  k' <> k -> MyPage.own (replace_value k v o) k' = MyPage.own o k'.
Proof.
  intros Hne. induction o as [|[k0 v0] o IH]; cbn; [reflexivity|].
  destruct (String.eqb_spec k0 k) as [->|]; cbn.
  - destruct (String.eqb_spec k k'); [congruence | reflexivity].
  - now rewrite IH.
Qed.

Lemma keys_replace_value o k v :
  List.map fst (replace_value k v o) = List.map fst o.
Proof.
  induction o as [|[k' v'] o IH]; cbn; [reflexivity|].
  destruct (String.eqb k' k); cbn; [reflexivity | now rewrite IH].
Qed.

Lemma own_insert_index_eq n o k v :
  has_key k o = false -> MyPage.own (insert_index n k v o) k = Some v.
Proof.
  induction o as [|[k' v'] o IH]; cbn; [now rewrite String.eqb_refl|].
  destruct (String.eqb k' k) eqn:E; [discriminate|]. cbn. intros H.
  destruct (array_index k') as [n'|]; [destruct (n' <? n)|]; cbn;
    rewrite ?E, ?String.eqb_refl; auto.
Qed.

Lemma own_insert_index_ne n o k k' v :
  k' <> k -> MyPage.own (insert_index n k v o) k' = MyPage.own o k'.
Proof.
  intros Hne. apply String.eqb_neq in Hne. rewrite String.eqb_sym in Hne.
  induction o as [|[k0 v0] o IH]; cbn; [now rewrite Hne|].
  destruct (array_index k0) as [n'|]; [destruct (n' <? n)|]; cbn;
    rewrite ?Hne, ?IH; reflexivity.
Qed.

Lemma own_app o o' k :
  MyPage.own (o ++ o') k = match MyPage.own o k with Some v => Some v | None => MyPage.own o' k end.
Proof.
  induction o as [|[k' v'] o IH]; cbn; [reflexivity|].
  destruct (String.eqb k' k); [reflexivity | exact IH].
Qed.

(** What [{ ...o, [k]: v }] holds under [k] is [v]. *)
Lemma own_define_eq o k v : MyPage.own (MyPage.define o k v) k = Some v.
Proof.
  unfold MyPage.define. destruct (has_key k o) eqn:H.
  - now apply own_replace_value_eq.
  - destruct (array_index k); [now apply own_insert_index_eq|].
    rewrite own_app, (own_has_key o k H). cbn. now rewrite String.eqb_refl.
Qed.

(** And under another key what [o] holds. *)
Lemma own_define_ne o k k' v : k' <> k -> MyPage.own (MyPage.define o k v) k' = MyPage.own o k'.
Proof.
  intros Hne. unfold MyPage.define. destruct (has_key k o).
  - now apply own_replace_value_ne.
  - destruct (array_index k); [now apply own_insert_index_ne|].
    rewrite own_app. cbn. apply String.eqb_neq in Hne. rewrite String.eqb_sym in Hne.
    rewrite Hne. now destruct (MyPage.own o k').
Qed.

Lemma keys_define o k v :
  List.map fst (MyPage.define o k v)
  = if has_key k o then List.map fst o
    else match array_index k with
         | Some n => List.map fst (insert_index n k v o)
         | None => List.map fst o ++ [k]
         end.
Proof.
  unfold MyPage.define. destruct (has_key k o); [apply keys_replace_value|].
  destruct (array_index k); [reflexivity|]. now rewrite List.map_app.
Qed.

Lemma entries_for_own o k v :
  distinct (List.map fst o) = true -> MyPage.own o k = Some v -> entries_for k o = [(k, v)].
Proof.
  induction o as [|[k' v'] o IH]; cbn; [discriminate|].
  intros Hd Ho. apply andb_prop in Hd as [Hk Hd]. apply negb_true_iff in Hk.
  destruct (String.eqb_spec k' k) as [->|Hne].
  - injection Ho as ->. f_equal. unfold entries_for in *.
    clear IH Hd. induction o as [|[k0 v0] o IH]; cbn in *; [reflexivity|].
    apply orb_false_elim in Hk as [Hk0 Hk]. rewrite String.eqb_sym in Hk0.
    rewrite Hk0. now apply IH.
  - now apply IH.
Qed.
End Define.

Lemma entries_for_map_inj {A B : Type} (f : string -> string) (g : A -> B)
    (o : Obj A) (k : string) :
  (forall k', In k' (List.map fst o) -> f k' = f k -> k' = k) ->
  entries_for (f k) (List.map (fun kv => (f (fst kv), g (snd kv))) o)
  = List.map (fun kv => (f (fst kv), g (snd kv))) (entries_for k o).
Proof.
  unfold entries_for. induction o as [|[k' v'] o IH]; intros Hinj; [reflexivity|].
  cbn [List.map List.filter fst snd].
  rewrite IH by (intros k0 H0; apply Hinj; now right).
  destruct (String.eqb_spec (f k') (f k)) as [E|E], (String.eqb_spec k' k) as [E'|E'];
    try reflexivity.
  - exfalso. apply E'. apply Hinj; [now left | exact E].
  - subst k'. contradiction.
Qed.

(** X17: a change typed in the parameter form sets the field named by the
    input to the number read from the text (zero when the text is no
    number), leaves every other field as it was, and keeps the keys and
    their order when the field exists; without a form, the change is
    lost. *)
Theorem handleParamsChange_fields (st : MyPage.State) (name value : string) :
  (forall form : Obj CaseConv.Json,
      MyPage.paramsForm st = Some form ->
      exists form' : Obj CaseConv.Json,
        MyPage.paramsForm (MyPage.handleParamsChange name value st) = Some form'
        /\ MyPage.own form' name = Some (MyPage.num (parseFloat_or_0 value))
        /\ (forall k, k <> name -> MyPage.own form' k = MyPage.own form k)
        /\ (has_key name form = true -> List.map fst form' = List.map fst form))
  /\ (MyPage.paramsForm st = None ->
      MyPage.paramsForm (MyPage.handleParamsChange name value st) = None)
  /\ MyPage.userInputs (MyPage.handleParamsChange name value st) = MyPage.userInputs st.
Proof.
  split; [|split].
  - intros form Hf. eexists. split.
    + unfold MyPage.handleParamsChange. cbn. rewrite Hf. reflexivity.
    + split; [apply own_define_eq|]. split.
      * intros k Hk. now apply own_define_ne.
      * intros Hk. now rewrite keys_define, Hk.
  - intros Hf. unfold MyPage.handleParamsChange. cbn. now rewrite Hf.
  - reflexivity.
Qed.

Lemma handleParamsChange_fields_witness :
  exists form' : Obj CaseConv.Json,
    MyPage.paramsForm
      (MyPage.handleParamsChange "repairs" "7500"
         (MyPage.startEditingParams MyPage.initialState)) = Some form'
    /\ MyPage.own form' "repairs" = Some (MyPage.num 7500%float)
    /\ MyPage.own form' "lenderFee" = Some (MyPage.num 10000%float).
Proof.
  destruct (handleParamsChange_fields (MyPage.startEditingParams MyPage.initialState)
              "repairs" "7500") as [H _].
  destruct (H MyPage.defaultParams eq_refl) as (form' & Hf & Hown & Hother & _).
  exists form'. split; [exact Hf|]. split; [exact Hown|].
  rewrite Hother by discriminate. reflexivity.
Defined.

Lemma camelToSnakeKey_inj (k k' : string) :
  camel_style k = true -> camel_style k' = true ->
  CaseConv.camelToSnakeKey k' = CaseConv.camelToSnakeKey k -> k' = k.
Proof.
  intros Hk Hk' E. rewrite <- (camel_key_round_trip k Hk), <- (camel_key_round_trip k' Hk').
  now rewrite E.
Qed.

Lemma camel_key_style (k : string) : camel_key k = true -> camel_style k = true.
Proof.
  unfold camel_key. intros H. apply andb_prop in H as [H _].
  now apply andb_prop in H as [? _].
Qed.

Lemma camel_key_assignable (k : string) : camel_key k = true -> assignable k = true.
Proof.
  unfold camel_key. intros H. apply andb_prop in H as [H _].
  now apply andb_prop in H as [_ ?].
Qed.

(** The conversion of a form whose keys are camel keys, all different:
    each field keeps its place, under its key in snake case. *)
Lemma convertCamelToSnake_form (form : Obj CaseConv.Json) :
  forallb camel_key (List.map fst form) = true ->
  distinct (List.map fst form) = true ->
  CaseConv.convertCamelToSnake (CaseConv.Object form)
  = CaseConv.Object
      (List.map (fun kv => (CaseConv.camelToSnakeKey (fst kv),
                            CaseConv.convertCamelToSnake (snd kv))) form).
Proof.
  intros Hk Hd. cbn [CaseConv.convertCamelToSnake]. f_equal.
  rewrite forallb_forall in Hk.
  rewrite (fold_assign_fresh (fun kv => CaseConv.camelToSnakeKey (fst kv))
             (fun kv => CaseConv.convertCamelToSnake (snd kv)) form []);
    [reflexivity | |].
  - apply forallb_forall. intros a Ha. apply in_map_iff in Ha as (kv & <- & Hkv).
    apply camelToSnakeKey_assignable, Hk. now apply in_map.
  - cbn [List.map app]. rewrite <- (List.map_map fst CaseConv.camelToSnakeKey).
    rewrite (CaseConvFacts.distinct_map_inj CaseConv.camelToSnakeKey
               CaseConv.snakeToCamelKey); [exact Hd|].
    apply List.Forall_forall. intros a Ha. apply camel_key_round_trip, camel_key_style.
    now apply Hk.
Qed.

Lemma define_camel_form (form : Obj CaseConv.Json) (k : string) (v : CaseConv.Json) :
  forallb camel_key (List.map fst form) = true ->
  distinct (List.map fst form) = true ->
  camel_key k = true ->
  forallb camel_key (List.map fst (MyPage.define form k v)) = true
  /\ distinct (List.map fst (MyPage.define form k v)) = true.
Proof.
  intros Hk Hd Hn. rewrite keys_define. destruct (has_key k form) eqn:Hh; [now split|].
  pose proof (camel_key_assignable k Hn) as Ha. unfold assignable in Ha.
  apply andb_prop in Ha as [_ Ha]. destruct (array_index k); [discriminate Ha|].
  split.
  - rewrite forallb_app, Hk. cbn. now rewrite Hn.
  - rewrite distinct_app_singleton, Hd. rewrite has_key_existsb in Hh. now rewrite Hh.
Qed.

(** X18: when the keys of the parameter form are camel keys, all
    different, a number typed in the input named [name] and then
    submitted is posted under the snake-case form of [name], once, and
    the body holds the fields of the form in their order, each under its
    key in snake case.  The form started from the defaults is such a
    form, and the nine inputs of the page have such names. *)
Theorem typed_parameter_is_posted (st : MyPage.State) (form : Obj CaseConv.Json)
    (name value : string) (stored token : option string) :
  MyPage.paramsForm st = Some form ->
  forallb camel_key (List.map fst form) = true ->
  distinct (List.map fst form) = true ->
  camel_key name = true ->
  exists (form' body : Obj CaseConv.Json),
    MyPage.paramsForm (MyPage.handleParamsChange name value st) = Some form'
    /\ snd (MyPage.handleParamsSubmit stored token
              (MyPage.handleParamsChange name value st))
       = [MyPage.PostInputs (MyPage.or_else stored token) (CaseConv.Object body)]
    /\ List.map fst body = List.map CaseConv.camelToSnakeKey (List.map fst form')
    /\ entries_for (CaseConv.camelToSnakeKey name) body
       = [(CaseConv.camelToSnakeKey name, MyPage.num (parseFloat_or_0 value))].
Proof.
  intros Hf Hk Hd Hn.
  set (v := MyPage.num (parseFloat_or_0 value)).
  destruct (define_camel_form form name v Hk Hd Hn) as [Hk' Hd'].
  exists (MyPage.define form name v). eexists.
  assert (Hp : MyPage.paramsForm (MyPage.handleParamsChange name value st)
               = Some (MyPage.define form name v)).
  { unfold MyPage.handleParamsChange. cbn. now rewrite Hf. }
  split; [exact Hp|]. split.
  { unfold MyPage.handleParamsSubmit. rewrite Hp.
    rewrite (convertCamelToSnake_form _ Hk' Hd'). reflexivity. }
  split; [now rewrite !List.map_map|].
  rewrite (entries_for_map_inj CaseConv.camelToSnakeKey CaseConv.convertCamelToSnake).
  - rewrite (entries_for_own _ name v Hd' (own_define_eq form name v)). reflexivity.
  - intros k' Hk0 E. rewrite forallb_forall in Hk'.
    apply (camelToSnakeKey_inj name k'); [now apply camel_key_style | | exact E].
    now apply camel_key_style, Hk'.
Qed.

Lemma typed_parameter_is_posted_witness :
  forallb camel_key MyPage.paramInputs = true
  /\ exists body : Obj CaseConv.Json,
       snd (MyPage.handleParamsSubmit (Some "t1") None
              (MyPage.handleParamsChange "firstMtgInterestRate" "5.25"
                 (MyPage.startEditingParams MyPage.initialState)))
       = [MyPage.PostInputs (Some "t1") (CaseConv.Object body)]
       /\ entries_for "first_mtg_interest_rate" body
          = [("first_mtg_interest_rate"%string, MyPage.num 5.25%float)].
Proof.
  split; [vm_compute; reflexivity|].
  destruct (typed_parameter_is_posted (MyPage.startEditingParams MyPage.initialState)
              MyPage.defaultParams "firstMtgInterestRate" "5.25" (Some "t1") None)
    as (form' & body & _ & Hreq & _ & He); [reflexivity | vm_compute; reflexivity ..|].
  exists body. split; [exact Hreq|]. vm_compute in He. exact He.
Defined.

Lemma truthyText_Some (a : option string) :
  MyPage.truthyText a = true -> exists s, a = Some s /\ s <> ""%string.
Proof.
  destruct a as [s|]; [|discriminate]. cbn. intros H. exists s. split; [reflexivity|].
  apply negb_true_iff in H. now apply String.eqb_neq.
Qed.

Lemma or_else_None (a : option string) :
  MyPage.or_else a None = if MyPage.truthyText a then a else None.
Proof. destruct a as [s|]; [|reflexivity]. cbn. now destruct (String.eqb s ""). Qed.

(** X19: a profile update carries a new password only when the new
    password typed is not empty, the confirmation is the same text, and a
    current password was typed, which is sent with it.  When the
    confirmation differs, or the current password is missing, nothing is
    sent and the error tells which; when no new password was typed the
    request carries none. *)
Theorem new_password_guard (stored token : option string) (st : MyPage.State) :
  let form := MyPage.profileForm st in
  let out := MyPage.handleProfileSubmit stored token st in
  (forall req : MyPage.Request,
      In req (snd out) ->
      exists body : MyPage.ProfileUpdate,
        req = MyPage.PutProfile (MyPage.or_else stored token) body
        /\ MyPage.body_username body = MyPage.own form "username"
        /\ (forall np : string,
              MyPage.new_password body = Some np ->
              np <> ""%string
              /\ MyPage.own form "newPassword" = Some np
              /\ MyPage.own form "confirmPassword" = Some np
              /\ exists cp : string,
                   cp <> ""%string
                   /\ MyPage.own form "currentPassword" = Some cp
                   /\ MyPage.current_password body = Some cp)
        /\ (MyPage.new_password body = None ->
            MyPage.truthyText (MyPage.own form "newPassword") = false))
  /\ (MyPage.truthyText (MyPage.own form "newPassword") = true ->
      MyPage.own form "confirmPassword" <> MyPage.own form "newPassword" ->
      snd out = [] /\ MyPage.error (fst out) = "New passwords do not match"%string)
  /\ (MyPage.truthyText (MyPage.own form "newPassword") = true ->
      MyPage.own form "confirmPassword" = MyPage.own form "newPassword" ->
      MyPage.truthyText (MyPage.own form "currentPassword") = false ->
      snd out = []
      /\ MyPage.error (fst out)
         = "Current password is required to change password"%string)
  /\ (MyPage.truthyText (MyPage.own form "newPassword") = false ->
      length (snd out) = 1%nat).
Proof.
  intros form out. subst out. unfold MyPage.handleProfileSubmit. fold form.
  rewrite !or_else_None.
  destruct (MyPage.truthyText (MyPage.own form "newPassword")) eqn:Hn.
  - destruct (truthyText_Some _ Hn) as (np & Enp & Hnp).
    assert (Hdiff : MyPage.differ (MyPage.own form "newPassword")
                      (MyPage.own form "confirmPassword") = false
                    <-> MyPage.own form "confirmPassword"
                        = MyPage.own form "newPassword").
    { rewrite Enp. destruct (MyPage.own form "confirmPassword") as [c|]; cbn.
      - destruct (String.eqb_spec np c); cbn; split; congruence.
      - split; intros E; discriminate E. }
    destruct (MyPage.differ _ _) eqn:Hd.
    + split; [intros req []|]. split; [now split|].
      split; [|intros E; discriminate E].
      intros _ E. apply Hdiff in E. discriminate E.
    + assert (Hc : MyPage.own form "confirmPassword" = MyPage.own form "newPassword")
        by now apply Hdiff.
      destruct (MyPage.truthyText (MyPage.own form "currentPassword")) eqn:Hcur;
        cbn [negb].
      * destruct (truthyText_Some _ Hcur) as (cp & Ecp & Hcp).
        split; [|split; [intros _ E; now destruct E|
                         split; [intros _ _ E; discriminate E
                                |intros E; discriminate E]]].
        intros req [<-|[]]. eexists. split; [reflexivity|].
        cbn [MyPage.body_username MyPage.new_password MyPage.current_password].
        split; [reflexivity|]. split; [|rewrite Enp; intros E; discriminate E].
        intros np' E. rewrite Enp in E. injection E as <-.
        split; [exact Hnp|]. split; [exact Enp|]. split; [now rewrite Hc|].
        exists cp. now split.
      * split; [intros req []|]. split; [intros _ E; now destruct E|].
        split; [now split | intros E; discriminate E].
  - split; [|split; [intros E; discriminate E
                    |split; [intros E; discriminate E | reflexivity]]].
    intros req [<-|[]]. eexists. split; [reflexivity|].
    cbn [MyPage.body_username MyPage.new_password MyPage.current_password].
    split; [reflexivity|]. split; [intros np E; discriminate E | reflexivity].
Qed.

Lemma new_password_guard_witness :
  let typed :=
    MyPage.handleProfileChange "confirmPassword" "s3cret"
      (MyPage.handleProfileChange "newPassword" "s3cret"
         (MyPage.startEditing (Some {| MyPage.email := "a@b.c"; MyPage.username := "ann" |})
            MyPage.initialState)) in
  snd (MyPage.handleProfileSubmit (Some "t1") None typed) = []
  /\ MyPage.error (fst (MyPage.handleProfileSubmit (Some "t1") None typed))
     = "Current password is required to change password"%string.
Proof.
  intros typed.
  destruct (new_password_guard (Some "t1") None typed) as (_ & _ & H & _).
  apply H; reflexivity.
Defined.

(** X20: when the keys of the parameter form are camel keys (at every
    depth) and no object of it holds a key twice, submitting the form and
    receiving, as [user_inputs], the body that was posted makes the user
    inputs on display the form itself; editing is over, and editing
    again starts from the same fields. *)
Theorem submitted_parameters_return (st : MyPage.State) (form : Obj CaseConv.Json)
    (stored token : option string) :
  MyPage.paramsForm st = Some form ->
  CaseConv.keys_ok camel_key (CaseConv.Object form) = true ->
  CaseConv.well_formed (CaseConv.Object form) = true ->
  exists body : CaseConv.Json,
    snd (MyPage.handleParamsSubmit stored token st)
    = [MyPage.PostInputs (MyPage.or_else stored token) body]
    /\ let st' := MyPage.handleParamsSubmit_resolved (Some body)
                    (fst (MyPage.handleParamsSubmit stored token st)) in
       MyPage.userInputs st' = Some (CaseConv.Object form)
       /\ MyPage.isEditingParams st' = false
       /\ MyPage.error st' = ""%string
       /\ MyPage.paramsForm (MyPage.startEditingParams st') = Some form.
Proof.
  intros Hf Hk Hw. eexists. unfold MyPage.handleParamsSubmit. rewrite Hf.
  split; [reflexivity|]. cbn [fst].
  unfold MyPage.handleParamsSubmit_resolved.
  change (MyPage.truthyJson (CaseConv.convertCamelToSnake (CaseConv.Object form)))
    with true. cbn iota.
  rewrite (round_trip_camel (CaseConv.Object form) Hk Hw).
  repeat split.
Qed.

Lemma submitted_parameters_return_witness :
  exists body : CaseConv.Json,
    snd (MyPage.handleParamsSubmit (Some "t1") None
           (MyPage.startEditingParams MyPage.initialState))
    = [MyPage.PostInputs (Some "t1") body]
    /\ MyPage.userInputs
         (MyPage.handleParamsSubmit_resolved (Some body)
            (fst (MyPage.handleParamsSubmit (Some "t1") None
                    (MyPage.startEditingParams MyPage.initialState))))
       = Some (CaseConv.Object MyPage.defaultParams).
Proof.
  destruct (submitted_parameters_return (MyPage.startEditingParams MyPage.initialState)
              MyPage.defaultParams (Some "t1") None)
    as (body & Hreq & Hu & _); [reflexivity | vm_compute; reflexivity ..|].
  exists body. split; [exact Hreq | exact Hu].
Defined.
